(** * Two-green-day candle filter: a shallow embedding of the scanner

    The repository holds two variants of the class [CryptoTradingStrategy]:
    - [2_green_filter.py], which talks to the exchange through [ccxt];
    - [src/two_green_filter_binance.py], which calls the Binance REST
      endpoints with [requests] and is the one the Telegram bot imports.

    Prices and volumes are IEEE-754 binary64 numbers in both (Python [float],
    [numpy.float64]); they are embedded as Rocq's primitive floats, so that
    [NaN], the infinities and division by zero behave as they do at run time.
    Exceptions are values of an error monad; [print] appends to an output
    log that the functions return next to their result. *)

From Stdlib Require Import ZArith List Bool String Ascii Lia Permutation Sorted.
From Stdlib Require Import Floats.
Import ListNotations.

Local Open Scope string_scope.
Local Open Scope list_scope.
Local Open Scope Z_scope.

(* ===================================================================== *)
(** ** Exceptions *)
(* ===================================================================== *)

(** The Python exceptions the modelled code can meet. [RequestError] stands
    for whatever the network layer raises ([requests] exceptions, [ccxt]
    errors, HTTP status errors, JSON decoding errors, malformed rows). *)
Inductive Exn : Type :=
| IndexError
| KeyError (key : string)
| RequestError (msg : string).

Inductive res (A : Type) : Type :=
| Ok (a : A)
| Raise (e : Exn).

Arguments Ok {A} a.
Arguments Raise {A} e.

Definition bind {A B : Type} (c : res A) (k : A -> res B) : res B :=
  match c with
  | Ok a => k a
  | Raise e => Raise e
  end.

Declare Scope res_scope.
Delimit Scope res_scope with res.
Notation "x <- c ;; k" := (bind c (fun x => k))
  (at level 61, c at next level, right associativity) : res_scope.

(* ===================================================================== *)
(** ** Python and pandas primitives *)
(* ===================================================================== *)

Module Py.

(** [seq[i]] for a Python sequence and [.iloc[i]] for a pandas object:
    a negative index counts from the end, an index out of range raises
    [IndexError]. *)
Definition getitem {A : Type} (l : list A) (i : Z) : res A :=
  let n := Z.of_nat (List.length l) in
  let j := if i <? 0 then n + i else i in
  if (j <? 0) || (n <=? j) then Raise IndexError
  else match nth_error l (Z.to_nat j) with
       | Some a => Ok a
       | None => Raise IndexError
       end.

(** [seq[:k]]: the first [k] items, or all but the last [-k] when [k] is
    negative; never raises. *)
Definition slice_to {A : Type} (l : list A) (k : Z) : list A :=
  if k <? 0 then firstn (Z.to_nat (Z.of_nat (List.length l) + k)) l
  else firstn (Z.to_nat k) l.

(** Truth value of an optional integer argument: [None] and [0] are
    false, every other integer is true. *)
Definition truthy (x : option Z) : bool :=
  match x with
  | None => false
  | Some k => negb (k =? 0)
  end.

(** The builtin [min(a, b)] on two floats: it keeps [a] unless [b < a]. *)
Definition min (a b : float) : float :=
  if (b <? a)%float then b else a.

(** [s.endswith(suffix)]. *)
Definition endswith (s suffix : string) : bool :=
  let n := String.length s in
  let k := String.length suffix in
  (k <=? n)%nat && String.eqb (substring (n - k) k s) suffix.

(** Insertion of [x] behind every item that is not greater than it; the
    only comparison is [<], as in [list.sort]. *)
Fixpoint insort {A : Type} (lt : A -> A -> bool) (x : A) (l : list A) : list A :=
  match l with
  | [] => [x]
  | h :: t => if lt x h then x :: h :: t else h :: insort lt x t
  end.

(** [list.sort]: a stable ascending sort that compares with [<] only.
    Every stable sort returns the same list when [<] orders the keys
    totally, which is the case the theorems below consider. *)
Definition sort {A : Type} (lt : A -> A -> bool) (l : list A) : list A :=
  fold_left (fun acc x => insort lt x acc) l [].

(** [sorted(l, key=key, reverse=reverse)] with float keys. CPython
    implements [reverse=True] by reversing the list, sorting it and
    reversing the result, which keeps equal keys in their first order. *)
Definition sorted {A : Type} (key : A -> float) (reverse : bool) (l : list A) : list A :=
  let lt := fun x y => (key x <? key y)%float in
  if reverse then rev (sort lt (rev l)) else sort lt l.

(** A [dict] with string keys: insertion ordered, one entry per key. *)
Definition dict (V : Type) : Type := list (string * V).

Fixpoint get {V : Type} (d : dict V) (k : string) : option V :=
  match d with
  | [] => None
  | (k', v) :: d' => if String.eqb k' k then Some v else get d' k
  end.

(** [d[k] = v]: an existing key keeps its place, a new key goes last. *)
Fixpoint setitem {V : Type} (d : dict V) (k : string) (v : V) : dict V :=
  match d with
  | [] => [(k, v)]
  | (k', v') :: d' =>
      if String.eqb k' k then (k', v) :: d' else (k', v') :: setitem d' k v
  end.

Definition keys {V : Type} (d : dict V) : list string := map fst d.

End Py.

Module Pd.

(** [Series.isna()] on a float. *)
Definition isna (x : float) : bool := is_nan x.

Definition float_of_nat (n : nat) : float :=
  of_uint63 (Uint63.of_Z (Z.of_nat n)).

(** Sum of a window, left to right. *)
Definition fsum (xs : list float) : float :=
  fold_left (fun acc x => (acc + x)%float) xs 0%float.

Definition count_valid (xs : list float) : nat :=
  List.length (filter (fun x => negb (isna x)) xs).

(** The value [rolling(window).mean()] gives for one window: [NaN] unless
    the window holds [window] observations that are numbers ([min_periods]
    defaults to the window size), else their mean.  pandas accumulates the
    sum incrementally with a compensation term; the rounding of that
    summation is not modelled, the sum is taken left to right. *)
Definition window_mean (window : nat) (obs : list float) : float :=
  if (count_valid obs <? window)%nat then nan
  else (fsum obs / float_of_nat (count_valid obs))%float.

(** The last [w] items of [l] (all of [l] when it is shorter). *)
Definition tail_window {A : Type} (w : nat) (l : list A) : list A :=
  skipn (List.length l - w) l.

(** [Series.rolling(window=w).mean()]: one output per input, computed
    while the window slides over the column; [recent] holds the (at most
    [w]) values before the current one. *)
Fixpoint rolling_from (w : nat) (recent : list float) (xs : list float) : list float :=
  match xs with
  | [] => []
  | x :: rest =>
      let obs := tail_window w (recent ++ [x]) in
      window_mean w obs :: rolling_from w obs rest
  end.

Definition rolling_mean (w : nat) (xs : list float) : list float :=
  rolling_from w [] xs.

End Pd.

(* ===================================================================== *)
(** ** Data model *)
(* ===================================================================== *)

(** One row of exchange data: [timestamp, Open, High, Low, Close, Volume].
    The Binance variant receives six more columns per row and never reads
    them; its price columns arrive as text and are converted with
    [astype(float)] before use, so both variants work on floats. *)
Record Candle : Type := {
  timestamp : Z;
  Open : float;
  High : float;
  Low : float;
  Close : float;
  Volume : float
}.

(** A row of the per-symbol [DataFrame] once the derived columns are set. *)
Record Row : Type := {
  candle : Candle;
  is_green : bool;
  MA28 : float
}.

Definition DataFrame : Type := list Row.

(** The dictionaries appended to [matching_pairs]. *)
Record SignalMatch : Type := {
  symbol : string;
  last_close : float;
  last_date : Z;
  ma28 : float;
  stop_loss : float;
  risk_pct : float;
  volume : float
}.

(** A [CryptoTradingStrategy] object: the attributes that the methods read
    and write.  The other attributes ([timeframe], [days_to_fetch], the
    exchange handle or base URL) only shape the requests, which the exchange
    records of the two variants stand for. *)
Record Strategy : Type := {
  quote_currency : string;
  data : Py.dict DataFrame;
  matching_pairs : list SignalMatch
}.

Definition set_data (self : Strategy) (d : Py.dict DataFrame) : Strategy :=
  {| quote_currency := quote_currency self;
     data := d;
     matching_pairs := matching_pairs self |}.

Definition set_matching_pairs (self : Strategy) (ms : list SignalMatch) : Strategy :=
  {| quote_currency := quote_currency self;
     data := data self;
     matching_pairs := ms |}.

(** [__init__]: empty [data], empty [matching_pairs]. *)
Definition init (quote : string) : Strategy :=
  {| quote_currency := quote; data := []; matching_pairs := [] |}.

(** What the methods print, one constructor per [print] call. *)
Inductive Line : Type :=
| FoundPairs (n : nat) (quote : string)
| ErrorFetchingMarketPairs (e : Exn)
| FetchingDataFor (n : nat)
| TimeInterval
| DaysOfData (sym : string) (n : nat)
| FrameDump (df : DataFrame)
| NoDataAvailable (sym : string)
| ErrorFetching (sym : string) (e : Exn).

(** The derived columns, set by the same two statements in both variants:
    [df['is_green'] = df['Close'] > df['Open']] and
    [df['MA28'] = df['Close'].rolling(window=28).mean()]. *)
Definition with_indicators (ohlcv : list Candle) : DataFrame :=
  map (fun cm : Candle * float =>
         {| candle := fst cm;
            is_green := (Open (fst cm) <? Close (fst cm))%float;
            MA28 := snd cm |})
      (combine ohlcv (Pd.rolling_mean 28 (map Close ohlcv))).

(** The symbols a run of [fetch_data] tried to fetch, read off its output:
    every pass through the loop prints exactly one of these three lines. *)
Definition attempted (out : list Line) : list string :=
  flat_map (fun l => match l with
                     | DaysOfData s _ | NoDataAvailable s | ErrorFetching s _ => [s]
                     | _ => []
                     end) out.

(* ===================================================================== *)
(** ** Variant 1: [2_green_filter.py] (ccxt) *)
(* ===================================================================== *)

Module Ccxt.

Local Open Scope res_scope.

(** The fields of a ccxt market structure that matter here. *)
Record Market : Type := {
  quote : string;
  active : bool
}.

(** The exchange as one call of [fetch_data] sees it. [fetch_ohlcv] is
    always called with the same timeframe and the same [since], so it is
    a function of the symbol. *)
Record Exchange : Type := {
  load_markets : res (Py.dict Market);
  fetch_ohlcv : string -> res (list Candle)
}.

(** The statements of [fetch_all_pairs] inside [try], up to the [print]. *)
Definition try_listing (ex : Exchange) (self : Strategy) : res (list string) :=
  markets <- load_markets ex ;;
  Ok (filter (fun sym => Py.endswith sym ("/" ++ quote_currency self)%string)
             (Py.keys markets)).

Definition fetch_all_pairs (ex : Exchange) (self : Strategy) : list string * list Line :=
  match try_listing ex self with
  | Ok symbols => (symbols, [FoundPairs (List.length symbols) (quote_currency self)])
  | Raise e => ([], [ErrorFetchingMarketPairs e])
  end.

(** One pass through the [for symbol in symbols] loop of [fetch_data]; the
    pause that ends each pass has no counterpart here. *)
Definition fetch_symbol (ex : Exchange) (st : Strategy * list Line) (sym : string)
  : Strategy * list Line :=
  let (self, out) := st in
  match fetch_ohlcv ex sym with
  | Ok ohlcv =>
      if (0 <? List.length ohlcv)%nat then
        let df := with_indicators ohlcv in
        (set_data self (Py.setitem (data self) sym df),
         out ++ [DaysOfData sym (List.length df); FrameDump df])
      else (self, out ++ [NoDataAvailable sym])
  | Raise e => (self, out ++ [ErrorFetching sym e])
  end.

Definition fetch_data (ex : Exchange) (limit_pairs : option Z) (self : Strategy)
  : nat * Strategy * list Line :=
  let (all_symbols, out0) := fetch_all_pairs ex self in
  let symbols :=
    if Py.truthy limit_pairs
    then match limit_pairs with
         | Some k => Py.slice_to all_symbols k
         | None => all_symbols
         end
    else all_symbols in
  let out1 := out0 ++ [FetchingDataFor (List.length symbols)] in
  let (self', out2) := fold_left (fetch_symbol ex) symbols (self, out1) in
  (List.length (data self'), self', out2).

(** The body of the loop of [filter_pairs_with_signals]: what one
    [(symbol, df)] item contributes. *)
Definition evaluate (sym : string) (df : DataFrame) : res (option SignalMatch) :=
  skip <- (if (List.length df <? 30)%nat then Ok true
           else last <- Py.getitem df (-1) ;; Ok (Pd.isna (MA28 last))) ;;
  if skip : bool then Ok None
  else if (2 <=? List.length df)%nat then
    last_candle <- Py.getitem df (-1) ;;
    second_last_candle <- Py.getitem df (-2) ;;
    if is_green last_candle && is_green second_last_candle
       && (MA28 last_candle <? Close (candle last_candle))%float
    then
      let stop := Py.min (Low (candle last_candle)) (Low (candle second_last_candle)) in
      let risk := ((Close (candle last_candle) / stop - 1) * 100)%float in
      date <- Py.getitem (map (fun r => timestamp (candle r)) df) (-1) ;;
      Ok (Some {| symbol := sym;
                  last_close := Close (candle last_candle);
                  last_date := date;
                  ma28 := MA28 last_candle;
                  stop_loss := stop;
                  risk_pct := risk;
                  volume := Volume (candle last_candle) |})
    else Ok None
  else Ok None.

Fixpoint collect (items : Py.dict DataFrame) (found : list SignalMatch)
  : res (list SignalMatch) :=
  match items with
  | [] => Ok found
  | (sym, df) :: rest =>
      r <- evaluate sym df ;;
      match r with
      | Some m => collect rest (found ++ [m])
      | None => collect rest found
      end
  end.

Definition filter_pairs_with_signals (self : Strategy)
  : res (list SignalMatch) * Strategy :=
  match collect (data self) [] with
  | Ok found =>
      let ranked := Py.sorted volume true found in
      (Ok ranked, set_matching_pairs self ranked)
  | Raise e => (Raise e, self)
  end.

(** The script's entry point without the final display. *)
Definition main (ex : Exchange) (quote : string)
  : res (list SignalMatch) * Strategy * list Line :=
  let '(_, self, out) := fetch_data ex None (init quote) in
  let (r, self') := filter_pairs_with_signals self in
  (r, self', out).

End Ccxt.

(* ===================================================================== *)
(** ** Variant 2: [src/two_green_filter_binance.py] (Binance REST) *)
(* ===================================================================== *)

Module Binance.

Local Open Scope res_scope.

(** A decoded JSON object of [exchangeInfo]'s [symbols] array; a key that
    the payload lacks is [None] and looking it up raises [KeyError]. *)
Record SymbolItem : Type := {
  item_symbol : option string;
  item_quoteAsset : option string;
  item_status : option string
}.

Record ExchangeInfo : Type := {
  info_symbols : option (list SymbolItem)
}.

(** The REST service as one call of [fetch_data] sees it: each field is
    the outcome of [requests.get], [raise_for_status] and [json] together.
    For [klines] it also covers building the frame and [astype(float)],
    which raise inside the same [try] on rows of the wrong shape. *)
Record Api : Type := {
  exchangeInfo : res ExchangeInfo;
  klines : string -> res (list Candle)
}.

Definition lookup {A : Type} (field : option A) (key : string) : res A :=
  match field with
  | Some a => Ok a
  | None => Raise (KeyError key)
  end.

(** The list comprehension of [fetch_all_pairs]; [and] evaluates
    [item['status']] only when the quote asset matches, and
    [item['symbol']] only for an item that passes the test. *)
Fixpoint select_symbols (quote : string) (items : list SymbolItem) : res (list string) :=
  match items with
  | [] => Ok []
  | item :: rest =>
      qa <- lookup (item_quoteAsset item) "quoteAsset" ;;
      keep <- (if String.eqb qa quote
               then st <- lookup (item_status item) "status" ;;
                    Ok (String.eqb st "TRADING")
               else Ok false) ;;
      if keep : bool then
        s <- lookup (item_symbol item) "symbol" ;;
        tl <- select_symbols quote rest ;;
        Ok (s :: tl)
      else select_symbols quote rest
  end.

(** The statements of [fetch_all_pairs] inside [try], up to the [print]. *)
Definition try_listing (api : Api) (self : Strategy) : res (list string) :=
  info <- exchangeInfo api ;;
  items <- lookup (info_symbols info) "symbols" ;;
  select_symbols (quote_currency self) items.

Definition fetch_all_pairs (api : Api) (self : Strategy) : list string * list Line :=
  match try_listing api self with
  | Ok symbols => (symbols, [FoundPairs (List.length symbols) (quote_currency self)])
  | Raise e => ([], [ErrorFetchingMarketPairs e])
  end.

(** One pass through the [for symbol in symbols] loop of [fetch_data]; the
    pause that ends each pass has no counterpart here. *)
Definition fetch_symbol (api : Api) (st : Strategy * list Line) (sym : string)
  : Strategy * list Line :=
  let (self, out) := st in
  match klines api sym with
  | Ok rows =>
      if (0 <? List.length rows)%nat then
        let df := with_indicators rows in
        (set_data self (Py.setitem (data self) sym df),
         out ++ [DaysOfData sym (List.length df)])
      else (self, out ++ [NoDataAvailable sym])
  | Raise e => (self, out ++ [ErrorFetching sym e])
  end.

Definition fetch_data (api : Api) (limit_pairs : option Z) (self : Strategy)
  : nat * Strategy * list Line :=
  let (all_symbols, out0) := fetch_all_pairs api self in
  let symbols :=
    if Py.truthy limit_pairs
    then match limit_pairs with
         | Some k => Py.slice_to all_symbols k
         | None => all_symbols
         end
    else all_symbols in
  let out1 := out0 ++ [FetchingDataFor (List.length symbols); TimeInterval] in
  let (self', out2) := fold_left (fetch_symbol api) symbols (self, out1) in
  (List.length (data self'), self', out2).

(** The body of the loop of [filter_pairs_with_signals]. *)
Definition evaluate (sym : string) (df : DataFrame) : res (option SignalMatch) :=
  skip <- (if (List.length df <? 30)%nat then Ok true
           else last <- Py.getitem df (-1) ;; Ok (Pd.isna (MA28 last))) ;;
  if skip : bool then Ok None
  else if (2 <=? List.length df)%nat then
    last_candle <- Py.getitem df (-1) ;;
    second_last_candle <- Py.getitem df (-2) ;;
    if is_green last_candle && is_green second_last_candle
       && (MA28 last_candle <? Close (candle last_candle))%float
    then
      let stop := Py.min (Low (candle last_candle)) (Low (candle second_last_candle)) in
      let risk := ((Close (candle last_candle) / stop - 1) * 100)%float in
      date <- Py.getitem (map (fun r => timestamp (candle r)) df) (-1) ;;
      Ok (Some {| symbol := sym;
                  last_close := Close (candle last_candle);
                  last_date := date;
                  ma28 := MA28 last_candle;
                  stop_loss := stop;
                  risk_pct := risk;
                  volume := Volume (candle last_candle) |})
    else Ok None
  else Ok None.

Fixpoint collect (items : Py.dict DataFrame) (found : list SignalMatch)
  : res (list SignalMatch) :=
  match items with
  | [] => Ok found
  | (sym, df) :: rest =>
      r <- evaluate sym df ;;
      match r with
      | Some m => collect rest (found ++ [m])
      | None => collect rest found
      end
  end.

(** [filter_pairs_with_signals] after its opening [self.fetch_data()]:
    the loop over [self.data], the sort and the assignment. *)
Definition filter_steps (self : Strategy) : res (list SignalMatch) * Strategy :=
  match collect (data self) [] with
  | Ok found =>
      let ranked := Py.sorted volume true found in
      (Ok ranked, set_matching_pairs self ranked)
  | Raise e => (Raise e, self)
  end.

Definition filter_pairs_with_signals (api : Api) (self : Strategy)
  : res (list SignalMatch) * Strategy * list Line :=
  let '(_, fetched, out) := fetch_data api None self in
  let (r, self') := filter_steps fetched in
  (r, self', out).

(** The script's entry point without the final display. *)
Definition main (api : Api) (quote : string)
  : res (list SignalMatch) * Strategy * list Line :=
  filter_pairs_with_signals api (init quote).

End Binance.

(* ===================================================================== *)
(** ** The scheduled scan of [crypto_telegram_bot.py] *)
(* ===================================================================== *)

Module Bot.

(** The texts [scheduled_scan] sends to a subscriber; sending is taken to
    succeed.  [Found] stands for the list of the first ten pairs. *)
Inductive Message : Type :=
| RunningScheduledScan
| FetchingMarketData
| Found (total : nat) (shown : list SignalMatch)
| NoMatchingPairs
| ErrorDuringScan (e : Exn).

(** [scheduled_scan]: a new strategy object, [fetch_data()], then
    [filter_pairs_with_signals()], which fetches once more; [first] and
    [again] are the exchange as each of the two rounds sees it. *)
Definition scheduled_scan (first again : Binance.Api) : list Message :=
  let crypto_strategy := init "USDT" in
  let '(_, fetched, _) := Binance.fetch_data first None crypto_strategy in
  let '(r, _, _) := Binance.filter_pairs_with_signals again fetched in
  [RunningScheduledScan; FetchingMarketData] ++
  match r with
  | Ok matching =>
      match matching with
      | [] => [NoMatchingPairs]
      | _ :: _ => [Found (List.length matching) (Py.slice_to matching 10)]
      end
  | Raise e => [ErrorDuringScan e]
  end.

End Bot.

(* ===================================================================== *)
(** ** The two variants side by side *)
(* ===================================================================== *)

Inductive Variant : Type := ccxt_script | binance_script.

Definition Exchange (v : Variant) : Type :=
  match v with
  | ccxt_script => Ccxt.Exchange
  | binance_script => Binance.Api
  end.

(** The candle request of a variant. *)
Definition candles (v : Variant) : Exchange v -> string -> res (list Candle) :=
  match v with
  | ccxt_script => Ccxt.fetch_ohlcv
  | binance_script => Binance.klines
  end.

Definition try_listing (v : Variant) : Exchange v -> Strategy -> res (list string) :=
  match v with
  | ccxt_script => Ccxt.try_listing
  | binance_script => Binance.try_listing
  end.

Definition fetch_all_pairs (v : Variant) : Exchange v -> Strategy -> list string * list Line :=
  match v with
  | ccxt_script => Ccxt.fetch_all_pairs
  | binance_script => Binance.fetch_all_pairs
  end.

(** One pass of the fetch loop of a variant. *)
Definition fetch_symbol (v : Variant)
  : Exchange v -> Strategy * list Line -> string -> Strategy * list Line :=
  match v with
  | ccxt_script => Ccxt.fetch_symbol
  | binance_script => Binance.fetch_symbol
  end.

Definition fetch_data (v : Variant)
  : Exchange v -> option Z -> Strategy -> nat * Strategy * list Line :=
  match v with
  | ccxt_script => Ccxt.fetch_data
  | binance_script => Binance.fetch_data
  end.

Definition evaluate (v : Variant) : string -> DataFrame -> res (option SignalMatch) :=
  match v with
  | ccxt_script => Ccxt.evaluate
  | binance_script => Binance.evaluate
  end.

(** The loop over [self.data], the sort and the assignment of
    [filter_pairs_with_signals], on the data at hand. *)
Definition signal_steps (v : Variant) : Strategy -> res (list SignalMatch) * Strategy :=
  match v with
  | ccxt_script => Ccxt.filter_pairs_with_signals
  | binance_script => Binance.filter_steps
  end.

Definition collect (v : Variant) : Py.dict DataFrame -> list SignalMatch -> res (list SignalMatch) :=
  match v with
  | ccxt_script => Ccxt.collect
  | binance_script => Binance.collect
  end.

(** A whole scan from a new object, as each script's [__main__] runs it. *)
Definition main (v : Variant)
  : Exchange v -> string -> res (list SignalMatch) * Strategy * list Line :=
  match v with
  | ccxt_script => Ccxt.main
  | binance_script => Binance.main
  end.


(* ===================================================================== *)
(** ** Notions used to state the properties *)
(* ===================================================================== *)

(** The unweighted arithmetic mean of a list of floats. *)
Definition arithmetic_mean (xs : list float) : float :=
  (Pd.fsum xs / Pd.float_of_nat (List.length xs))%float.

(** The values at indices [i-27 .. i] of a column. *)
Definition trailing28 (i : nat) (xs : list float) : list float :=
  firstn 28 (skipn (i - 27) xs).

(** The predicate of the entry signal on the last two candles and the
    moving average at the last one. *)
Definition entry_signal (second last : Candle) (ma : float) : bool :=
  (Open last <? Close last)%float && (Open second <? Close second)%float
  && (ma <? Close last)%float.

(** The match the spec describes for a symbol whose last two candles are
    [second] and [last]. *)
Definition expected_match (sym : string) (second last : Candle) (ma : float) : SignalMatch :=
  let stop := Py.min (Low last) (Low second) in
  {| symbol := sym;
     last_close := Close last;
     last_date := timestamp last;
     ma28 := ma;
     stop_loss := stop;
     risk_pct := ((Close last / stop - 1) * 100)%float;
     volume := Volume last |}.

(** The match built from the last two rows of a frame. *)
Definition match_of_rows (sym : string) (second last : Row) : SignalMatch :=
  let stop := Py.min (Low (candle last)) (Low (candle second)) in
  {| symbol := sym;
     last_close := Close (candle last);
     last_date := timestamp (candle last);
     ma28 := MA28 last;
     stop_loss := stop;
     risk_pct := ((Close (candle last) / stop - 1) * 100)%float;
     volume := Volume (candle last) |}.

Definition rows_signal (second last : Row) : bool :=
  is_green last && is_green second && (MA28 last <? Close (candle last))%float.

(** The matches in the order in which the loop over [self.data] meets
    them, before the sort. *)
Definition found_matches (v : Variant) (items : Py.dict DataFrame) : list SignalMatch :=
  flat_map (fun item : string * DataFrame =>
              match evaluate v (fst item) (snd item) with
              | Ok (Some m) => [m]
              | _ => []
              end) items.

(** The symbols [fetch_data] loops over:
    [all_symbols[:limit_pairs] if limit_pairs else all_symbols]. *)
Definition selected (limit_pairs : option Z) (all_symbols : list string) : list string :=
  if Py.truthy limit_pairs
  then match limit_pairs with
       | Some k => Py.slice_to all_symbols k
       | None => all_symbols
       end
  else all_symbols.

(** What one pass leaves in [self.data]. *)
Definition stored (rows_of : string -> res (list Candle)) (d : Py.dict DataFrame)
  (sym : string) : Py.dict DataFrame :=
  match rows_of sym with
  | Ok (c :: rows) => Py.setitem d sym (with_indicators (c :: rows))
  | _ => d
  end.

(** What one pass prints. *)
Definition lines_for (v : Variant) (rows_of : string -> res (list Candle)) (sym : string)
  : list Line :=
  match rows_of sym with
  | Ok (c :: rows) =>
      let df := with_indicators (c :: rows) in
      DaysOfData sym (List.length df)
        :: match v with ccxt_script => [FrameDump df] | binance_script => [] end
  | Ok [] => [NoDataAvailable sym]
  | Raise e => [ErrorFetching sym e]
  end.

(** The lines between the listing and the loop. *)
Definition header (v : Variant) (n : nat) : list Line :=
  match v with
  | ccxt_script => [FetchingDataFor n]
  | binance_script => [FetchingDataFor n; TimeInterval]
  end.

(** A well-formed [exchangeInfo] payload: every object has its three keys. *)
Definition payload (entries : list (string * string * string)) : Binance.ExchangeInfo :=
  {| Binance.info_symbols :=
       Some (map (fun t : string * string * string =>
                    {| Binance.item_symbol := Some (fst (fst t));
                       Binance.item_quoteAsset := Some (snd (fst t));
                       Binance.item_status := Some (snd t) |}) entries) |}.

(** The entries the spec asks for: quote asset equal to the quote currency
    and status tradable. *)
Definition tradable_in (quote : string) (t : string * string * string) : bool :=
  String.eqb (snd (fst t)) quote && String.eqb (snd t) "TRADING".

(** Binary64 values ordered through their specification: a key that
    [SFcompare] orders lexicographically. *)
Module F64.

Definition key (f : spec_float) : Z * Z * Z :=
  match f with
  | S754_infinity true => (-2, 0, 0)
  | S754_finite true m e => (-1, - e, - Zpos m)
  | S754_zero _ => (0, 0, 0)
  | S754_finite false m e => (1, e, Zpos m)
  | S754_infinity false => (2, 0, 0)
  | S754_nan => (3, 0, 0)
  end.

Definition klt (a b : Z * Z * Z) : Prop :=
  let '(c1, e1, m1) := a in
  let '(c2, e2, m2) := b in
  c1 < c2 \/ (c1 = c2 /\ (e1 < e2 \/ (e1 = e2 /\ m1 < m2))).

Definition fkey (x : float) : Z * Z * Z := key (Prim2SF x).

(** A float that is a number: not [NaN]. *)
Definition number (x : float) : Prop := is_nan x = false.

(** [NaN] or an infinity. *)
Definition special (p : spec_float) : bool :=
  match p with
  | S754_nan | S754_infinity _ => true
  | _ => false
  end.

End F64.

(** Every key is a number. *)
Definition numeric {A : Type} (key : A -> float) (l : list A) : Prop :=
  Forall (fun a => F64.number (key a)) l.

(** [a] may stand before [b] in ascending order. *)
Definition nondecreasing {A : Type} (key : A -> float) (a b : A) : Prop :=
  (key b <? key a)%float = false.

(** [a] may stand before [b] in descending order. *)
Definition nonincreasing {A : Type} (key : A -> float) (a b : A) : Prop :=
  (key b <=? key a)%float = true.

(** The items whose key equals [v]. *)
Definition same_key {A : Type} (key : A -> float) (v : float) (l : list A) : list A :=
  filter (fun a => (key a =? v)%float) l.

(* ===================================================================== *)
(** ** Sample series *)
(* ===================================================================== *)

Module Sample.

Definition bar (t : Z) (o h l c vol : float) : Candle :=
  {| timestamp := t; Open := o; High := h; Low := l; Close := c; Volume := vol |}.

(** Forty daily candles: flat at 100 but for a dip on day 20 and two green
    candles at the end (close 105 above a moving average of 100, lows 98 and
    99, volume 500000 on the last day). *)
Definition day_with (low38 vol39 : float) (i : nat) : Candle :=
  let t := Z.of_nat i in
  if (i =? 20)%nat then bar t 100 100 92 92 10
  else if (i =? 38)%nat then bar t 99 104 low38 103 7
  else if (i =? 39)%nat then bar t 100 106 99 105 vol39
  else bar t 100 100 100 100 10.

Definition day (low38 : float) (i : nat) : Candle := day_with low38 500000 i.

Definition series_A : list Candle := map (day 98) (seq 0 40).

(** The same series with a low of zero on day 38. *)
Definition series_Z : list Candle := map (day 0) (seq 0 40).

(** The first twenty-nine candles only. *)
Definition series_short : list Candle := map (day 98) (seq 0 29).

(** An object whose [data] holds four frames: two with a last volume of
    500000, one with 700000 between them, and a short one. *)
Definition strategy : Strategy :=
  {| quote_currency := "USDT";
     data := [ ("AUSDT", with_indicators series_A);
               ("BUSDT", with_indicators (map (day_with 98 700000) (seq 0 40)));
               ("CUSDT", with_indicators series_A);
               ("DUSDT", with_indicators series_short) ];
     matching_pairs := [] |}.

End Sample.

(* ===================================================================== *)
(** ** Sample exchanges *)
(* ===================================================================== *)

Module SampleExchange.

Definition refused : Exn := RequestError "connection refused".

Definition item (s q st : string) : Binance.SymbolItem :=
  {| Binance.item_symbol := Some s;
     Binance.item_quoteAsset := Some q;
     Binance.item_status := Some st |}.

(** The REST service out of reach. *)
Definition api_down : Binance.Api :=
  {| Binance.exchangeInfo := Raise refused;
     Binance.klines := fun _ => Raise refused |}.

(** A payload without its [symbols] key. *)
Definition api_malformed : Binance.Api :=
  {| Binance.exchangeInfo := Ok {| Binance.info_symbols := None |};
     Binance.klines := fun _ => Raise refused |}.

(** One tradable pair whose forty candles are flat: no signal. *)
Definition api_quiet : Binance.Api :=
  {| Binance.exchangeInfo :=
       Ok {| Binance.info_symbols := Some [item "QUSDT" "USDT" "TRADING"] |};
     Binance.klines :=
       fun _ => Ok (map (fun i => Sample.bar (Z.of_nat i) 100 100 100 100 10) (seq 0 40)) |}.

(** Three pairs: the candles of ["BUSDT"] cannot be fetched, the other two
    show the signal. *)
Definition api_partial : Binance.Api :=
  {| Binance.exchangeInfo :=
       Ok {| Binance.info_symbols :=
               Some [item "AUSDT" "USDT" "TRADING"; item "BUSDT" "USDT" "TRADING";
                     item "CUSDT" "USDT" "TRADING"; item "ABTC" "BTC" "TRADING";
                     item "HUSDT" "USDT" "BREAK"] |};
     Binance.klines :=
       fun s => if String.eqb s "BUSDT" then Raise refused else Ok Sample.series_A |}.

(** ccxt markets: one active pair, one halted pair, one pair of another
    quote currency. *)
Definition markets : Py.dict Ccxt.Market :=
  [ ("BTC/USDT", {| Ccxt.quote := "USDT"; Ccxt.active := true |});
    ("LUNA/USDT", {| Ccxt.quote := "USDT"; Ccxt.active := false |});
    ("ETH/BTC", {| Ccxt.quote := "BTC"; Ccxt.active := true |}) ].

Definition ccxt_exchange : Ccxt.Exchange :=
  {| Ccxt.load_markets := Ok markets;
     Ccxt.fetch_ohlcv := fun _ => Ok Sample.series_A |}.

Definition ccxt_down : Ccxt.Exchange :=
  {| Ccxt.load_markets := Raise refused;
     Ccxt.fetch_ohlcv := fun _ => Raise refused |}.

End SampleExchange.

(* ===================================================================== *)
(** ** The chart of [visualize_pair] *)
(* ===================================================================== *)

(** What [visualize_pair] decides; the drawing itself (matplotlib) is no
    part of the model.  The method has the same text in both variants. *)
Module Chart.

Local Open Scope res_scope.

(** The check for an entry signal at the end of the frame and, when it
    holds, the level of the stop-loss line: the [if] that follows the
    plotting of the candles. *)
Definition entry_marker (df : DataFrame) : res (option float) :=
  shown <- (if (2 <=? List.length df)%nat then
              g1 <- Py.getitem (map is_green df) (-1) ;;
              if g1 : bool then
                g2 <- Py.getitem (map is_green df) (-2) ;;
                if g2 : bool then
                  c <- Py.getitem (map (fun r => Close (candle r)) df) (-1) ;;
                  ma <- Py.getitem (map MA28 df) (-1) ;;
                  Ok (ma <? c)%float
                else Ok false
              else Ok false
            else Ok false) ;;
  if shown : bool then
    l1 <- Py.getitem (map (fun r => Low (candle r)) df) (-1) ;;
    l2 <- Py.getitem (map (fun r => Low (candle r)) df) (-2) ;;
    Ok (Some (Py.min l1 l2))
  else Ok None.

(** What a call of [visualize_pair] shows. *)
Inductive Drawing : Type :=
| NoDataAvailableFor (sym : string)
| Plot (sym : string) (stop_loss_line : option float).

Definition visualize_pair (self : Strategy) (sym : string) : res Drawing :=
  match Py.get (data self) sym with
  | None => Ok (NoDataAvailableFor sym)
  | Some df => marker <- entry_marker df ;; Ok (Plot sym marker)
  end.

End Chart.

(* ===================================================================== *)
(** ** More sample data *)
(* ===================================================================== *)

Module MoreSamples.

(** Days 12 to 39 of the sample series: 28 candles ending in the signal. *)
Definition series_28 : list Candle := map (Sample.day 98) (seq 12 28).

(** The exchange of the second round of a scheduled scan: the same pairs
    as [SampleExchange.api_partial], but no candle request succeeds. *)
Definition api_candles_down : Binance.Api :=
  {| Binance.exchangeInfo := Binance.exchangeInfo SampleExchange.api_partial;
     Binance.klines := fun _ => Raise SampleExchange.refused |}.

(** A payload whose second object lacks its keys but is of another quote
    asset, and one whose second object lacks [quoteAsset]. *)
Definition items_lazy : list Binance.SymbolItem :=
  [ SampleExchange.item "AUSDT" "USDT" "TRADING";
    {| Binance.item_symbol := None; Binance.item_quoteAsset := Some "BTC";
       Binance.item_status := None |} ].

Definition items_broken : list Binance.SymbolItem :=
  [ SampleExchange.item "AUSDT" "USDT" "TRADING";
    {| Binance.item_symbol := Some "BUSDT"; Binance.item_quoteAsset := None;
       Binance.item_status := Some "TRADING" |} ].

Definition api_of (items : list Binance.SymbolItem) : Binance.Api :=
  {| Binance.exchangeInfo := Ok {| Binance.info_symbols := Some items |};
     Binance.klines := fun _ => Ok Sample.series_A |}.

End MoreSamples.

(* ===================================================================== *)
(** ** The two rounds of a scheduled scan *)
(* ===================================================================== *)

(** The strategy object of [scheduled_scan] after its own [fetch_data()] and
    the one that opens [filter_pairs_with_signals()]. *)
Definition two_rounds (first again : Binance.Api) : Strategy :=
  snd (fst (Binance.fetch_data again None
              (snd (fst (Binance.fetch_data first None (init "USDT")))))).

(* ===================================================================== *)
(** ** The subscriber store: SQLite as the two [database.py] use it *)
(* ===================================================================== *)

(** The statements of the two [Database] classes run against a database
    file, modelled as the tables it holds.  Both tables of the code have an
    [INTEGER PRIMARY KEY] column, which SQLite identifies with the row id:
    a table is a map from row id to the values of the other columns, kept
    in ascending row id, the order of a table scan.  Opening the file is
    taken to succeed; a statement fails on a missing table or column. *)
Module Sqlite.

Inductive Value : Type :=
| Null
| Integer (z : Z)
| Text (s : string).

Inductive Error : Type :=
| OperationalError (msg : string)
| IntegrityError (msg : string).

Inductive outcome (A : Type) : Type :=
| Done (a : A)
| Failed (e : Error).

Arguments Done {A} a.
Arguments Failed {A} e.

Definition Row : Type := list (string * Value).

Record Table : Type := {
  primary_key : string;
  columns : list (string * Value);
  rows : list (Z * Row)
}.

Definition Db : Type := Py.dict Table.

Definition with_rows (t : Table) (rs : list (Z * Row)) : Table :=
  {| primary_key := primary_key t; columns := columns t; rows := rs |}.

(** The value of a column in a stored row ([NULL] for a column the row does
    not hold). *)
Fixpoint assoc (r : Row) (c : string) : Value :=
  match r with
  | [] => Null
  | (c', x) :: r' => if String.eqb c' c then x else assoc r' c
  end.

Fixpoint given (values : list (string * Value)) (c : string) : option Value :=
  match values with
  | [] => None
  | (c', x) :: rest => if String.eqb c' c then Some x else given rest c
  end.

Definition has_column (t : Table) (c : string) : bool :=
  String.eqb c (primary_key t) || existsb (fun col => String.eqb (fst col) c) (columns t).

(** The value of a column of a row of the table, the key column included. *)
Definition column_of (t : Table) (kr : Z * Row) (c : string) : Value :=
  if String.eqb c (primary_key t) then Integer (fst kr) else assoc (snd kr) c.

(** [=] on two values of the same storage class; [NULL] equals nothing. *)
Definition sql_eq (a b : Value) : bool :=
  match a, b with
  | Integer x, Integer y => x =? y
  | Text x, Text y => String.eqb x y
  | _, _ => false
  end.

Fixpoint row_of (rs : list (Z * Row)) (k : Z) : option Row :=
  match rs with
  | [] => None
  | (k', r) :: rest => if k' =? k then Some r else row_of rest k
  end.

(** The row with id [k] becomes [r]: replaced in place, or inserted where
    the ascending order puts it. *)
Fixpoint put (k : Z) (r : Row) (rs : list (Z * Row)) : list (Z * Row) :=
  match rs with
  | [] => [(k, r)]
  | (k', r') :: rest =>
      if k <? k' then (k, r) :: (k', r') :: rest
      else if k =? k' then (k, r) :: rest
      else (k', r') :: put k r rest
  end.

(** The row id SQLite picks for a [NULL] key: one more than the largest. *)
Definition next_rowid (rs : list (Z * Row)) : Z :=
  fold_left (fun m kr => Z.max m (fst kr)) rs 0 + 1.

(** [CREATE TABLE IF NOT EXISTS name (...)]: an existing table is left as it
    is, whatever its columns are. *)
Definition create_table_if_not_exists (name : string) (t : Table) (db : Db) : Db :=
  match Py.get db name with
  | Some _ => db
  | None => Py.setitem db name t
  end.

Definition table (db : Db) (name : string) : outcome Table :=
  match Py.get db name with
  | Some t => Done t
  | None => Failed (OperationalError ("no such table: " ++ name)%string)
  end.

(** [INSERT OR REPLACE INTO name (c1, ...) VALUES (v1, ...)]: a column that
    is not named takes its default; a row with the same key is replaced as
    a whole. *)
Definition insert_or_replace (name : string) (values : list (string * Value)) (db : Db)
  : outcome Db :=
  match table db name with
  | Failed e => Failed e
  | Done t =>
      match find (fun cv => negb (has_column t (fst cv))) values with
      | Some cv =>
          Failed (OperationalError
                    ("table " ++ name ++ " has no column named " ++ fst cv)%string)
      | None =>
          let row := map (fun col => (fst col,
                                      match given values (fst col) with
                                      | Some x => x
                                      | None => snd col
                                      end)) (columns t) in
          match given values (primary_key t) with
          | Some (Integer k) => Done (Py.setitem db name (with_rows t (put k row (rows t))))
          | Some (Text _) => Failed (IntegrityError "datatype mismatch")
          | Some Null | None =>
              Done (Py.setitem db name
                      (with_rows t (put (next_rowid (rows t)) row (rows t))))
          end
      end
  end.

(** The assignments of an [UPDATE] applied to a stored row. *)
Definition assign (sets : list (string * Value)) (r : Row) : Row :=
  map (fun cx => (fst cx, match given sets (fst cx) with
                          | Some x => x
                          | None => snd cx
                          end)) r.

(** [UPDATE name SET c1 = v1, ... WHERE key = k], for columns other than
    the key. *)
Definition update_by_key (name : string) (sets : list (string * Value)) (k : Z) (db : Db)
  : outcome Db :=
  match table db name with
  | Failed e => Failed e
  | Done t =>
      match find (fun cv => negb (has_column t (fst cv))) sets with
      | Some cv => Failed (OperationalError ("no such column: " ++ fst cv)%string)
      | None =>
          Done (Py.setitem db name
                  (with_rows t
                     (map (fun kr => if fst kr =? k then (fst kr, assign sets (snd kr))
                                     else kr) (rows t))))
      end
  end.

(** [SELECT c1, ... FROM name WHERE w1 = x1 AND ...]: the rows in table
    order. *)
Definition select (name : string) (cols : list string) (where_ : list (string * Value))
  (db : Db) : outcome (list (list Value)) :=
  match table db name with
  | Failed e => Failed e
  | Done t =>
      match find (fun c => negb (has_column t c)) (cols ++ map fst where_) with
      | Some c => Failed (OperationalError ("no such column: " ++ c)%string)
      | None =>
          Done (map (fun kr => map (column_of t kr) cols)
                    (filter (fun kr => forallb (fun cx => sql_eq (column_of t kr (fst cx))
                                                                 (snd cx)) where_)
                            (rows t)))
      end
  end.

(** How [sqlite3] stores a Python [str] or [None]. *)
Definition of_option (s : option string) : Value :=
  match s with
  | Some x => Text x
  | None => Null
  end.

End Sqlite.

(** What the [Database] methods log. *)
Inductive LogRecord : Type :=
| LogInfo (msg : string)
| LogError (msg : string) (e : Sqlite.Error).

(** [src/database.py].  Every method but [init_db] takes the database file
    as it is and returns its result, the file as it leaves it and what it
    logged; [now] is the text [sqlite3] stores for [datetime.now()].  A
    failed statement leaves the file unchanged ([with conn] rolls back). *)
Module DatabaseTop.

Import Sqlite.

Definition subscribers : Table :=
  {| primary_key := "chat_id";
     columns := [ ("username", Null); ("subscribed_at", Null);
                  ("is_active", Integer 1); ("last_notification", Null) ];
     rows := [] |}.

Definition init_db (db : Db) : Db * list LogRecord :=
  (create_table_if_not_exists "subscribers" subscribers db,
   [LogInfo "Database initialized successfully"]).

Definition add_subscriber (db : Db) (chat_id : Z) (username : option string) (now : string)
  : bool * Db * list LogRecord :=
  match insert_or_replace "subscribers"
          [ ("chat_id", Integer chat_id); ("username", of_option username);
            ("subscribed_at", Text now); ("is_active", Integer 1) ] db with
  | Done db' => (true, db', [])
  | Failed e => (false, db, [LogError "Error adding subscriber" e])
  end.

Definition remove_subscriber (db : Db) (chat_id : Z) : bool * Db * list LogRecord :=
  match update_by_key "subscribers" [("is_active", Integer 0)] chat_id db with
  | Done db' => (true, db', [])
  | Failed e => (false, db, [LogError "Error removing subscriber" e])
  end.

Definition get_active_subscribers (db : Db) : list (list Value) * list LogRecord :=
  match select "subscribers" ["chat_id"; "username"] [("is_active", Integer 1)] db with
  | Done found => (found, [])
  | Failed e => ([], [LogError "Error getting active subscribers" e])
  end.

Definition update_last_notification (db : Db) (chat_id : Z) (now : string)
  : bool * Db * list LogRecord :=
  match update_by_key "subscribers" [("last_notification", Text now)] chat_id db with
  | Done db' => (true, db', [])
  | Failed e => (false, db, [LogError "Error updating last notification" e])
  end.

End DatabaseTop.

(** [src/src/database.py]: the [subscribers] table is created without the
    [subscribed_at] column, a [user_settings] table is added, and
    [get_user_setting] reads it. *)
Module DatabaseInner.

Import Sqlite.

Definition subscribers : Table :=
  {| primary_key := "chat_id";
     columns := [ ("username", Null); ("is_active", Integer 1);
                  ("last_notification", Null) ];
     rows := [] |}.

Definition user_settings : Table :=
  {| primary_key := "chat_id";
     columns := [ ("setting_name", Null); ("setting_value", Null); ("updated_at", Null) ];
     rows := [] |}.

Definition init_db (db : Db) : Db * list LogRecord :=
  (create_table_if_not_exists "user_settings" user_settings
     (create_table_if_not_exists "subscribers" subscribers db),
   [LogInfo "Database initialized successfully"]).

Definition add_subscriber (db : Db) (chat_id : Z) (username : option string) (now : string)
  : bool * Db * list LogRecord :=
  match insert_or_replace "subscribers"
          [ ("chat_id", Integer chat_id); ("username", of_option username);
            ("subscribed_at", Text now); ("is_active", Integer 1) ] db with
  | Done db' => (true, db', [])
  | Failed e => (false, db, [LogError "Error adding subscriber" e])
  end.

Definition remove_subscriber (db : Db) (chat_id : Z) : bool * Db * list LogRecord :=
  match update_by_key "subscribers" [("is_active", Integer 0)] chat_id db with
  | Done db' => (true, db', [])
  | Failed e => (false, db, [LogError "Error removing subscriber" e])
  end.

Definition get_active_subscribers (db : Db) : list (list Value) * list LogRecord :=
  match select "subscribers" ["chat_id"; "username"] [("is_active", Integer 1)] db with
  | Done found => (found, [])
  | Failed e => ([], [LogError "Error getting active subscribers" e])
  end.

Definition update_last_notification (db : Db) (chat_id : Z) (now : string)
  : bool * Db * list LogRecord :=
  match update_by_key "subscribers" [("last_notification", Text now)] chat_id db with
  | Done db' => (true, db', [])
  | Failed e => (false, db, [LogError "Error updating last notification" e])
  end.

(** [result[0] if result else default_value] on the first row found. *)
Definition get_user_setting (db : Db) (chat_id : Z) (setting_name : string)
  (default_value : Value) : Value * list LogRecord :=
  match select "user_settings" ["setting_value"]
          [("chat_id", Integer chat_id); ("setting_name", Text setting_name)] db with
  | Done found =>
      match found with
      | (x :: _) :: _ => (x, [])
      | _ => (default_value, [])
      end
  | Failed e => (default_value, [LogError "Error getting user setting" e])
  end.

End DatabaseInner.

(* ===================================================================== *)
(** ** The bot's commands and its start *)
(* ===================================================================== *)

(** The [Database] class as [crypto_telegram_bot.py] uses it; either file
    provides these methods. *)
Record DatabaseClass : Type := {
  db_init : Sqlite.Db -> Sqlite.Db * list LogRecord;
  db_add_subscriber :
    Sqlite.Db -> Z -> option string -> string -> bool * Sqlite.Db * list LogRecord;
  db_remove_subscriber : Sqlite.Db -> Z -> bool * Sqlite.Db * list LogRecord;
  db_get_active_subscribers : Sqlite.Db -> list (list Sqlite.Value) * list LogRecord
}.

Inductive DatabaseFile : Type := top_database | inner_database.

Definition database (f : DatabaseFile) : DatabaseClass :=
  match f with
  | top_database =>
      {| db_init := DatabaseTop.init_db;
         db_add_subscriber := DatabaseTop.add_subscriber;
         db_remove_subscriber := DatabaseTop.remove_subscriber;
         db_get_active_subscribers := DatabaseTop.get_active_subscribers |}
  | inner_database =>
      {| db_init := DatabaseInner.init_db;
         db_add_subscriber := DatabaseInner.add_subscriber;
         db_remove_subscriber := DatabaseInner.remove_subscriber;
         db_get_active_subscribers := DatabaseInner.get_active_subscribers |}
  end.

Module BotCommands.

Import Sqlite.

(** The texts the command handlers reply with. *)
Inductive Reply : Type :=
| Welcome
| SuccessfullySubscribed
| FailedToSubscribe
| SuccessfullyUnsubscribed
| FailedToUnsubscribe.

(** [/start]: the result of [add_subscriber] is not looked at. *)
Definition start (D : DatabaseClass) (db : Db) (chat_id : Z) (username : option string)
  (now : string) : Reply * Db :=
  let '(_, db', _) := db_add_subscriber D db chat_id username now in
  (Welcome, db').

Definition subscribe (D : DatabaseClass) (db : Db) (chat_id : Z) (username : option string)
  (now : string) : Reply * Db :=
  let '(added, db', _) := db_add_subscriber D db chat_id username now in
  (if added : bool then SuccessfullySubscribed else FailedToSubscribe, db').


(** The [ValueError] of an assignment of a tuple to several names. *)
Inductive StartError : Type :=
| NotEnoughValuesToUnpack (expected got : nat)
| TooManyValuesToUnpack (expected : nat).

(** A daily job of the queue. *)
Record Job : Type := {
  job_chat_id : Value;
  job_scan_days : Value;
  job_hour : Z;
  job_minute : Z
}.

(** Truth value of a Python value read from the database. *)
Definition truthy (x : Value) : bool :=
  match x with
  | Null => false
  | Integer z => negb (z =? 0)
  | Text s => negb (String.eqb s "")
  end.

Section SetupJobs.

(** The [try] block of [setup_jobs]: parsing the time of day and
    [job_queue.run_daily]; [None] when it raises, which the [except] clause
    logs.  It belongs to the Telegram library and to Python's parsing; the
    loop around it is modelled for any such block. *)
Variable run_daily : Value -> Value -> Value -> option Job.

(** The loop of [setup_jobs]; the assignment of the row to six names is
    outside the [try]. *)
Fixpoint schedule (subscribers : list (list Value)) (jobs : list Job)
  : StartError + list Job :=
  match subscribers with
  | [] => inr jobs
  | subscriber :: rest =>
      match subscriber with
      | [chat_id; _; _; _; scan_days; notification_time] =>
          if truthy notification_time then
            match run_daily chat_id scan_days notification_time with
            | Some job => schedule rest (jobs ++ [job])
            | None => schedule rest jobs
            end
          else schedule rest jobs
      | _ =>
          if (List.length subscriber <? 6)%nat
          then inl (NotEnoughValuesToUnpack 6 (List.length subscriber))
          else inl (TooManyValuesToUnpack 6)
      end
  end.

Definition setup_jobs (D : DatabaseClass) (db : Db) : StartError + list Job :=
  schedule (fst (db_get_active_subscribers D db)) [].


End SetupJobs.

End BotCommands.

(* ===================================================================== *)
(** ** Notions for the subscriber store *)
(* ===================================================================== *)

(** The stored record of a chat, if any. *)
Definition record (db : Sqlite.Db) (chat_id : Z) : option Sqlite.Row :=
  match Py.get db "subscribers" with
  | Some t => Sqlite.row_of (Sqlite.rows t) chat_id
  | None => None
  end.





(** The calls a bot makes on its database, and their replay. *)
Inductive Call : Type :=
| AddSubscriber (chat_id : Z) (username : option string) (now : string)
| RemoveSubscriber (chat_id : Z)
| UpdateLastNotification (chat_id : Z) (now : string).


Definition inner_call (db : Sqlite.Db) (c : Call) : Sqlite.Db :=
  match c with
  | AddSubscriber chat u now => snd (fst (DatabaseInner.add_subscriber db chat u now))
  | RemoveSubscriber chat => snd (fst (DatabaseInner.remove_subscriber db chat))
  | UpdateLastNotification chat now =>
      snd (fst (DatabaseInner.update_last_notification db chat now))
  end.






Definition inner_new_file : Sqlite.Db := fst (DatabaseInner.init_db []).

(* ===================================================================== *)
(** ** Binary64 facts *)
(* ===================================================================== *)

Module F64Facts.

Import F64.

Lemma SFcompare_key (a b : spec_float) :
  a <> S754_nan -> b <> S754_nan ->
  (SFcompare a b = Some Lt <-> klt (key a) (key b)) /\
  (SFcompare a b = Some Eq <-> key a = key b) /\
  (SFcompare a b = Some Gt <-> klt (key b) (key a)).
Proof.
  intros Ha Hb.
  destruct a as [sa|sa| |sa ma ea], b as [sb|sb| |sb mb eb];
    try congruence; try destruct sa; try destruct sb; cbn [SFcompare key klt];
    try (repeat split; intros; try lia; try discriminate; try congruence; fail).
  - change (Pos.compare_cont Eq ma mb) with (Pos.compare ma mb).
    destruct (Z.compare_spec ea eb), (Pos.compare_spec ma mb); cbn;
      repeat split; intros; try lia; try discriminate; try congruence;
      try (match goal with H : (_, _, _) = (_, _, _) |- _ => inversion H; lia end).
  - change (Pos.compare_cont Eq ma mb) with (Pos.compare ma mb).
    destruct (Z.compare_spec ea eb), (Pos.compare_spec ma mb); cbn;
      repeat split; intros; try lia; try discriminate; try congruence;
      try (match goal with H : (_, _, _) = (_, _, _) |- _ => inversion H; lia end).
Qed.

Lemma SFcompare_nan_l (b : spec_float) : SFcompare S754_nan b = None.
Proof. reflexivity. Qed.

Lemma SFcompare_nan_r (a : spec_float) : SFcompare a S754_nan = None.
Proof. destruct a as [s|s| |s m e]; reflexivity. Qed.

Lemma number_spec (x : float) : number x <-> Prim2SF x <> S754_nan.
Proof.
  unfold number, is_nan. rewrite eqb_spec. unfold SFeqb.
  split.
  - intros H E. rewrite E in H. discriminate.
  - intros H. destruct (SFcompare_key _ _ H H) as (_ & He & _).
    rewrite (proj2 He eq_refl). reflexivity.
Qed.

Lemma nan_spec (x : float) : is_nan x = true <-> x = nan.
Proof.
  split.
  - intros H. apply Prim2SF_inj.
    destruct (Prim2SF x) eqn:E;
      try (assert (N : number x) by (apply number_spec; rewrite E; discriminate);
           unfold number in N; congruence).
    reflexivity.
  - intros ->. reflexivity.
Qed.

Lemma compare_cases (x y : float) :
  (number x /\ number y /\
   exists c, SFcompare (Prim2SF x) (Prim2SF y) = Some c /\
             (c = Lt <-> klt (fkey x) (fkey y)) /\
             (c = Eq <-> fkey x = fkey y) /\
             (c = Gt <-> klt (fkey y) (fkey x)))
  \/ ((~ number x \/ ~ number y) /\ SFcompare (Prim2SF x) (Prim2SF y) = None).
Proof.
  rewrite !number_spec. unfold fkey.
  destruct (Prim2SF x) as [sx|sx| |sx mx ex] eqn:Ex;
    try (right; split; [left; intros H; apply H; reflexivity | reflexivity]);
    (destruct (Prim2SF y) as [sy|sy| |sy my ey] eqn:Ey;
     try (right; split; [right; intros H; apply H; reflexivity | reflexivity]));
    left; (split; [discriminate|]); (split; [discriminate|]);
    match goal with
    | |- context [SFcompare ?a ?b] =>
        destruct (SFcompare_key a b ltac:(discriminate) ltac:(discriminate))
          as (Hl & He & Hg);
        destruct (SFcompare a b) as [c|] eqn:Ec
    end;
    try (exfalso;
         match goal with
         | |- _ => destruct sx; discriminate
         | |- _ => destruct sx, sy; discriminate
         | |- _ => discriminate
         end).
  all: exists c; repeat split; intros H; subst;
    try (apply Hl; reflexivity); try (apply He; reflexivity); try (apply Hg; reflexivity);
    try (apply Hl in H; congruence); try (apply He in H; congruence);
    try (apply Hg in H; congruence).
Qed.

Lemma ltb_true (x y : float) :
  (x <? y)%float = true <-> number x /\ number y /\ klt (fkey x) (fkey y).
Proof.
  rewrite ltb_spec. unfold SFltb.
  destruct (compare_cases x y) as [(Nx & Ny & c & -> & Hl & He & Hg) | (N & ->)].
  - split.
    + destruct c; try discriminate. intros _. repeat split; auto. apply Hl; reflexivity.
    + intros (_ & _ & H). apply Hl in H. subst c. reflexivity.
  - split; [discriminate | intros (Nx & Ny & _); tauto].
Qed.

Lemma eqb_true (x y : float) :
  (x =? y)%float = true <-> number x /\ number y /\ fkey x = fkey y.
Proof.
  rewrite eqb_spec. unfold SFeqb.
  destruct (compare_cases x y) as [(Nx & Ny & c & -> & Hl & He & Hg) | (N & ->)].
  - split.
    + destruct c; try discriminate. intros _. repeat split; auto. apply He; reflexivity.
    + intros (_ & _ & H). apply He in H. subst c. reflexivity.
  - split; [discriminate | intros (Nx & Ny & _); tauto].
Qed.

Lemma klt_cases (a b : Z * Z * Z) : klt a b \/ a = b \/ klt b a.
Proof.
  destruct a as [[c1 e1] m1], b as [[c2 e2] m2]. unfold klt.
  destruct (Z.lt_total c1 c2) as [H|[H|H]]; [lia | subst | lia].
  destruct (Z.lt_total e1 e2) as [H|[H|H]]; [lia | subst | lia].
  destruct (Z.lt_total m1 m2) as [H|[H|H]]; [lia | subst; auto | lia].
Qed.

Lemma klt_irrefl (a : Z * Z * Z) : ~ klt a a.
Proof. destruct a as [[c e] m]. unfold klt. lia. Qed.

Lemma klt_trans (a b c : Z * Z * Z) : klt a b -> klt b c -> klt a c.
Proof.
  destruct a as [[c1 e1] m1], b as [[c2 e2] m2], c as [[c3 e3] m3]. unfold klt. lia.
Qed.

Lemma klt_asym (a b : Z * Z * Z) : klt a b -> ~ klt b a.
Proof. intros H H'. exact (klt_irrefl a (klt_trans a b a H H')). Qed.

Lemma leb_true (x y : float) :
  (x <=? y)%float = true <-> number x /\ number y /\ ~ klt (fkey y) (fkey x).
Proof.
  rewrite leb_spec. unfold SFleb.
  destruct (compare_cases x y) as [(Nx & Ny & c & -> & Hl & He & Hg) | (N & ->)].
  - split.
    + destruct c; try discriminate; intros _; repeat split; auto.
      * rewrite (proj1 He eq_refl). apply klt_irrefl.
      * apply klt_asym. apply Hl; reflexivity.
    + intros (_ & _ & H). destruct c; try reflexivity.
      exfalso. apply H. apply Hg. reflexivity.
  - split; [discriminate | intros (Nx & Ny & _); tauto].
Qed.

(** [<] on floats is asymmetric, [NaN] included. *)
Lemma ltb_asym (x y : float) : (x <? y)%float = true -> (y <? x)%float = false.
Proof.
  intros H. apply ltb_true in H. destruct H as (_ & _ & H).
  destruct (y <? x)%float eqn:E; [|reflexivity].
  apply ltb_true in E. destruct E as (_ & _ & E). destruct (klt_asym _ _ H E).
Qed.

(** On numbers, "not less" is "greater or equal". *)
Lemma ltb_false_leb (x y : float) :
  number x -> number y -> (x <? y)%float = false -> (y <=? x)%float = true.
Proof.
  intros Nx Ny H. apply leb_true. repeat split; auto.
  intros K. assert (T : (x <? y)%float = true) by (apply ltb_true; auto). congruence.
Qed.

Lemma ltb_false_iff (x y : float) :
  number x -> number y -> ((x <? y)%float = false <-> ~ klt (fkey x) (fkey y)).
Proof.
  intros Nx Ny. split.
  - intros H K. assert (T : (x <? y)%float = true) by (apply ltb_true; auto). congruence.
  - intros H. destruct (x <? y)%float eqn:E; [|reflexivity].
    apply ltb_true in E. tauto.
Qed.

(** *** Special values in arithmetic *)

Lemma add_nan_l (x : float) : (nan + x)%float = nan.
Proof.
  apply Prim2SF_inj. rewrite add_spec.
  change (Prim2SF nan) with S754_nan. reflexivity.
Qed.

Lemma add_nan_r (x : float) : (x + nan)%float = nan.
Proof.
  apply Prim2SF_inj. rewrite add_spec.
  change (Prim2SF nan) with S754_nan.
  destruct (Prim2SF x); reflexivity.
Qed.

Lemma div_nan_l (y : float) : (nan / y)%float = nan.
Proof.
  apply Prim2SF_inj. rewrite div_spec.
  change (Prim2SF nan) with S754_nan. reflexivity.
Qed.

Lemma zero_spec (x : float) :
  (x =? 0)%float = true -> exists s, Prim2SF x = S754_zero s.
Proof.
  intros H. apply eqb_true in H. destruct H as (_ & _ & H).
  unfold fkey in H. change (Prim2SF 0) with (S754_zero false) in H.
  destruct (Prim2SF x) as [s|s| |s m e]; cbn in H.
  - exists s; reflexivity.
  - destruct s; discriminate.
  - discriminate.
  - destruct s; discriminate.
Qed.

Lemma div_by_zero_special (c z : float) :
  (z =? 0)%float = true -> special (Prim2SF (c / z)) = true.
Proof.
  intros H. destruct (zero_spec z H) as [s E].
  rewrite div_spec, E. destruct (Prim2SF c); reflexivity.
Qed.

Lemma sub_one_special (q : float) :
  special (Prim2SF q) = true -> special (Prim2SF (q - 1)) = true.
Proof.
  intros H. rewrite sub_spec.
  destruct (Prim2SF q); try discriminate; reflexivity.
Qed.

Lemma mul_hundred_special (q : float) :
  special (Prim2SF q) = true -> special (Prim2SF (q * 100)) = true.
Proof.
  intros H. rewrite mul_spec.
  destruct (Prim2SF q); try discriminate; reflexivity.
Qed.

Lemma special_not_finite (r : float) :
  special (Prim2SF r) = true -> is_finite r = false.
Proof.
  intros H. rewrite <- (SF2Prim_Prim2SF r).
  destruct (Prim2SF r) as [s|s| |s m e]; try discriminate.
  - destruct s; reflexivity.
  - reflexivity.
Qed.

(** On numbers the builtin [min] is the lesser of its arguments. *)
Lemma py_min_least (a b : float) :
  number a -> number b ->
  (Py.min a b <=? a)%float = true /\ (Py.min a b <=? b)%float = true
  /\ (Py.min a b = a \/ Py.min a b = b).
Proof.
  intros Na Nb. unfold Py.min. destruct (b <? a)%float eqn:E.
  - apply ltb_true in E. destruct E as (_ & _ & K).
    repeat split; [| |right; reflexivity]; apply leb_true; repeat split; auto.
    + apply klt_asym. exact K.
    + apply klt_irrefl.
  - repeat split; [| |left; reflexivity].
    + apply leb_true. repeat split; auto. apply klt_irrefl.
    + apply ltb_false_leb; assumption.
Qed.

End F64Facts.

(* ===================================================================== *)
(** ** Sequences, frames and the loop body *)
(* ===================================================================== *)

Section Sequences.

Context {A : Type}.

Lemma getitem_last (l : list A) (a : A) : Py.getitem (l ++ [a]) (-1) = Ok a.
Proof.
  unfold Py.getitem. rewrite length_app. cbn [List.length].
  change (-1 <? 0) with true. cbv iota.
  replace (Z.of_nat (List.length l + 1) + -1) with (Z.of_nat (List.length l)) by lia.
  replace (Z.of_nat (List.length l) <? 0) with false by (symmetry; apply Z.ltb_ge; lia).
  replace (Z.of_nat (List.length l + 1) <=? Z.of_nat (List.length l)) with false
    by (symmetry; apply Z.leb_gt; lia).
  cbn [orb]. rewrite Nat2Z.id, nth_error_app2 by lia.
  rewrite Nat.sub_diag. reflexivity.
Qed.

Lemma getitem_second_last (l : list A) (a b : A) :
  Py.getitem (l ++ [a; b]) (-2) = Ok a.
Proof.
  unfold Py.getitem. rewrite length_app. cbn [List.length].
  change (-2 <? 0) with true. cbv iota.
  replace (Z.of_nat (List.length l + 2) + -2) with (Z.of_nat (List.length l)) by lia.
  replace (Z.of_nat (List.length l) <? 0) with false by (symmetry; apply Z.ltb_ge; lia).
  replace (Z.of_nat (List.length l + 2) <=? Z.of_nat (List.length l)) with false
    by (symmetry; apply Z.leb_gt; lia).
  cbn [orb]. rewrite Nat2Z.id, nth_error_app2 by lia.
  rewrite Nat.sub_diag. reflexivity.
Qed.

(** A list of two items or more ends in two items. *)
Lemma two_last (l : list A) :
  (2 <= List.length l)%nat -> exists pre a b, l = pre ++ [a; b].
Proof.
  intros H. destruct (rev l) as [|b [|a r]] eqn:E.
  - apply (f_equal (@List.length A)) in E. rewrite length_rev in E. cbn in E. lia.
  - apply (f_equal (@List.length A)) in E. rewrite length_rev in E. cbn in E. lia.
  - exists (rev r), a, b. rewrite <- (rev_involutive l), E. cbn [rev].
    rewrite <- app_assoc. reflexivity.
Qed.

Lemma filter_none (f : A -> bool) (l : list A) :
  (forall y, In y l -> f y = false) -> filter f l = [].
Proof.
  induction l as [|h t IH]; intros H; [reflexivity|].
  cbn [filter]. rewrite (H h (or_introl eq_refl)). apply IH.
  intros y Hy. apply H. right. exact Hy.
Qed.

End Sequences.

Section LoopBody.

Local Open Scope res_scope.

Lemma evaluate_short (v : Variant) (sym : string) (df : DataFrame) :
  (List.length df < 30)%nat -> evaluate v sym df = Ok None.
Proof.
  intros H. destruct v; cbn [evaluate]; unfold Ccxt.evaluate, Binance.evaluate;
    (replace (List.length df <? 30)%nat with true by (symmetry; apply Nat.ltb_lt; exact H));
    reflexivity.
Qed.

Lemma evaluate_long (v : Variant) (sym : string) (pre : list Row) (second last : Row) :
  (30 <= List.length (pre ++ [second; last]))%nat ->
  evaluate v sym (pre ++ [second; last]) =
    Ok (if Pd.isna (MA28 last) then None
        else if rows_signal second last then Some (match_of_rows sym second last)
             else None).
Proof.
  intros H.
  assert (E1 : Py.getitem (pre ++ [second; last]) (-1) = Ok last).
  { change [second; last] with ([second] ++ [last]). rewrite app_assoc. apply getitem_last. }
  assert (E2 : Py.getitem (pre ++ [second; last]) (-2) = Ok second)
    by apply getitem_second_last.
  assert (E3 : Py.getitem (map (fun r => timestamp (candle r)) (pre ++ [second; last])) (-1)
               = Ok (timestamp (candle last))).
  { rewrite map_app. cbn [map].
    change [timestamp (candle second); timestamp (candle last)]
      with ([timestamp (candle second)] ++ [timestamp (candle last)]).
    rewrite app_assoc. apply getitem_last. }
  destruct v; cbn [evaluate]; unfold Ccxt.evaluate, Binance.evaluate;
    (replace (List.length (pre ++ [second; last]) <? 30)%nat with false
      by (symmetry; apply Nat.ltb_ge; exact H));
    (replace (2 <=? List.length (pre ++ [second; last]))%nat with true
      by (symmetry; apply Nat.leb_le; lia));
    rewrite E1, E2, E3; cbn [bind];
    destruct (Pd.isna (MA28 last)); try reflexivity;
    unfold rows_signal, match_of_rows;
    destruct (is_green last && is_green second
              && (MA28 last <? Close (candle last))%float); reflexivity.
Qed.

(** The loop body never raises. *)
Lemma evaluate_total (v : Variant) (sym : string) (df : DataFrame) :
  exists r, evaluate v sym df = Ok r.
Proof.
  destruct (Nat.lt_ge_cases (List.length df) 30) as [H|H].
  - eexists. apply evaluate_short. exact H.
  - destruct (two_last df ltac:(lia)) as (pre & a & b & ->).
    eexists. apply evaluate_long. exact H.
Qed.

End LoopBody.

(* ===================================================================== *)
(** ** The rolling mean *)
(* ===================================================================== *)

Section Rolling.

Lemma fold_add_nan (xs : list float) :
  fold_left (fun acc x => (acc + x)%float) xs nan = nan.
Proof.
  induction xs as [|x xs IH]; cbn [fold_left]; [reflexivity|].
  rewrite F64Facts.add_nan_l. exact IH.
Qed.

Lemma fold_add_has_nan (xs : list float) (acc : float) :
  In nan xs -> fold_left (fun acc x => (acc + x)%float) xs acc = nan.
Proof.
  revert acc. induction xs as [|x xs IH]; intros acc H; [destruct H|].
  cbn [fold_left]. destruct H as [-> | H].
  - rewrite F64Facts.add_nan_r. apply fold_add_nan.
  - apply IH. exact H.
Qed.

Lemma count_valid_le (xs : list float) : (Pd.count_valid xs <= List.length xs)%nat.
Proof. unfold Pd.count_valid. apply filter_length_le. Qed.

Lemma count_valid_lt (xs : list float) :
  (Pd.count_valid xs < List.length xs)%nat -> In nan xs.
Proof.
  unfold Pd.count_valid. induction xs as [|x xs IH]; cbn [filter List.length]; [lia|].
  unfold Pd.isna at 1. destruct (is_nan x) eqn:E; cbn [negb List.length]; intros H.
  - left. apply F64Facts.nan_spec. exact E.
  - right. apply IH. lia.
Qed.

(** A full window: the pandas value is the arithmetic mean of the window,
    [NaN] included. *)
Lemma window_mean_full (w : nat) (obs : list float) :
  List.length obs = w -> Pd.window_mean w obs = arithmetic_mean obs.
Proof.
  intros L. unfold Pd.window_mean, arithmetic_mean.
  destruct (Pd.count_valid obs <? w)%nat eqn:E.
  - apply Nat.ltb_lt in E. rewrite <- L in E. apply count_valid_lt in E.
    unfold Pd.fsum. rewrite (fold_add_has_nan obs 0%float E).
    symmetry. apply F64Facts.div_nan_l.
  - apply Nat.ltb_ge in E. pose proof (count_valid_le obs) as U.
    replace (Pd.count_valid obs) with (List.length obs) by lia. reflexivity.
Qed.

Lemma window_mean_short (w : nat) (obs : list float) :
  (List.length obs < w)%nat -> Pd.window_mean w obs = nan.
Proof.
  intros L. unfold Pd.window_mean. pose proof (count_valid_le obs) as U.
  replace (Pd.count_valid obs <? w)%nat with true by (symmetry; apply Nat.ltb_lt; lia).
  reflexivity.
Qed.

Lemma tail_window_slide {A : Type} (w : nat) (l : list A) (x : A) :
  Pd.tail_window w (Pd.tail_window w l ++ [x]) = Pd.tail_window w (l ++ [x]).
Proof.
  unfold Pd.tail_window.
  destruct (Nat.le_gt_cases (List.length l) w) as [H|H].
  - replace (List.length l - w)%nat with 0%nat by lia. reflexivity.
  - rewrite !length_app, length_skipn. cbn [List.length].
    replace (List.length l - (List.length l - w) + 1 - w)%nat with 1%nat by lia.
    replace (List.length l + 1 - w)%nat with (1 + (List.length l - w))%nat by lia.
    rewrite <- skipn_skipn. f_equal.
    rewrite skipn_app. replace (List.length l - w - List.length l)%nat with 0%nat by lia.
    reflexivity.
Qed.

Lemma rolling_from_map (w : nat) (xs hist : list float) :
  Pd.rolling_from w (Pd.tail_window w hist) xs =
  map (fun k => Pd.window_mean w (Pd.tail_window w (hist ++ firstn (S k) xs)))
      (seq 0 (List.length xs)).
Proof.
  revert hist. induction xs as [|x xs IH]; intros hist; [reflexivity|].
  cbn [Pd.rolling_from List.length seq map]. rewrite tail_window_slide. f_equal.
  rewrite IH, <- seq_shift, map_map. apply map_ext. intros k.
  rewrite <- app_assoc. reflexivity.
Qed.

Lemma rolling_mean_length (w : nat) (xs : list float) :
  List.length (Pd.rolling_mean w xs) = List.length xs.
Proof.
  unfold Pd.rolling_mean. change (@nil float) with (Pd.tail_window w (@nil float)).
  rewrite rolling_from_map, length_map, length_seq. reflexivity.
Qed.

Lemma rolling_mean_nth (xs : list float) (i : nat) :
  (i < List.length xs)%nat ->
  nth_error (Pd.rolling_mean 28 xs) i =
    Some (if (i <? 27)%nat then nan else arithmetic_mean (trailing28 i xs)).
Proof.
  intros H. unfold Pd.rolling_mean.
  change (@nil float) with (Pd.tail_window 28 (@nil float)).
  rewrite rolling_from_map, nth_error_map, nth_error_seq.
  replace (i <? List.length xs)%nat with true by (symmetry; apply Nat.ltb_lt; exact H).
  cbn [option_map app Nat.add]. f_equal.
  destruct (i <? 27)%nat eqn:E.
  - apply Nat.ltb_lt in E. apply window_mean_short.
    unfold Pd.tail_window. rewrite length_skipn, length_firstn. lia.
  - apply Nat.ltb_ge in E.
    assert (W : Pd.tail_window 28 (firstn (S i) xs) = trailing28 i xs).
    { unfold Pd.tail_window, trailing28. rewrite length_firstn.
      replace (Nat.min (S i) (List.length xs) - 28)%nat with (i - 27)%nat by lia.
      rewrite skipn_firstn_comm. f_equal. lia. }
    rewrite W. apply window_mean_full.
    unfold trailing28. rewrite length_firstn, length_skipn. lia.
Qed.

Lemma with_indicators_length (ohlcv : list Candle) :
  List.length (with_indicators ohlcv) = List.length ohlcv.
Proof.
  unfold with_indicators.
  rewrite length_map, length_combine, rolling_mean_length, length_map. lia.
Qed.

Lemma nth_error_combine {A B : Type} (l : list A) (m : list B) (i : nat) (a : A) (b : B) :
  nth_error l i = Some a -> nth_error m i = Some b ->
  nth_error (combine l m) i = Some (a, b).
Proof.
  revert m i. induction l as [|x l IH]; intros m i Ha Hb.
  - destruct i; discriminate.
  - destruct m as [|y m]; [destruct i; discriminate|].
    destruct i as [|i]; cbn in *.
    + congruence.
    + apply IH; assumption.
Qed.

(** Row [i] of a frame: the candle, its colour and its moving average. *)
Lemma with_indicators_nth (ohlcv : list Candle) (i : nat) (c : Candle) :
  nth_error ohlcv i = Some c ->
  nth_error (with_indicators ohlcv) i =
    Some {| candle := c;
            is_green := (Open c <? Close c)%float;
            MA28 := if (i <? 27)%nat then nan
                    else arithmetic_mean (trailing28 i (map Close ohlcv)) |}.
Proof.
  intros H. unfold with_indicators.
  assert (L : (i < List.length ohlcv)%nat) by (apply nth_error_Some; congruence).
  rewrite nth_error_map.
  rewrite (nth_error_combine ohlcv _ i c _ H
             (rolling_mean_nth (map Close ohlcv) i ltac:(rewrite length_map; exact L))).
  reflexivity.
Qed.

End Rolling.

(* ===================================================================== *)
(** ** The evaluator on processed series *)
(* ===================================================================== *)

Section Evaluator.

Lemma snoc2_of_nth {A : Type} (l : list A) (n : nat) (a b : A) :
  List.length l = (n + 2)%nat ->
  nth_error l n = Some a -> nth_error l (S n) = Some b ->
  l = firstn n l ++ [a; b].
Proof.
  revert n. induction l as [|x l IH]; intros n L Ha Hb; [cbn in L; lia|].
  destruct n as [|n].
  - destruct l as [|y [|z l]]; cbn in *; try lia. congruence.
  - cbn [firstn app]. f_equal. apply IH; cbn in *; try lia; assumption.
Qed.

(** The two last rows of the frame built from a series. *)
Lemma with_indicators_last_two (pre : list Candle) (second last : Candle) :
  let ohlcv := pre ++ [second; last] in
  exists (rows : list Row) (ma2 ma1 : float),
    with_indicators ohlcv =
      rows ++ [ {| candle := second; is_green := (Open second <? Close second)%float;
                   MA28 := ma2 |};
                {| candle := last; is_green := (Open last <? Close last)%float;
                   MA28 := ma1 |} ]
    /\ nth_error (map MA28 (with_indicators ohlcv)) (List.length ohlcv - 1) = Some ma1.
Proof.
  intros ohlcv. set (n := List.length pre).
  assert (H2 : nth_error ohlcv n = Some second).
  { unfold ohlcv, n. rewrite nth_error_app2, Nat.sub_diag by lia. reflexivity. }
  assert (H1 : nth_error ohlcv (S n) = Some last).
  { unfold ohlcv, n. rewrite nth_error_app2 by lia.
    replace (S (List.length pre) - List.length pre)%nat with 1%nat by lia. reflexivity. }
  assert (L : List.length ohlcv = (n + 2)%nat).
  { unfold ohlcv, n. rewrite length_app. reflexivity. }
  pose proof (with_indicators_nth ohlcv n second H2) as R2.
  pose proof (with_indicators_nth ohlcv (S n) last H1) as R1.
  eexists _, _, _. split.
  - apply (snoc2_of_nth (with_indicators ohlcv) n).
    + rewrite with_indicators_length. exact L.
    + exact R2.
    + exact R1.
  - rewrite nth_error_map, L. replace (n + 2 - 1)%nat with (S n) by lia.
    rewrite R1. reflexivity.
Qed.

End Evaluator.

(* ===================================================================== *)
(** ** Ranking: [sorted(..., key=volume, reverse=True)] *)
(* ===================================================================== *)

Section Reordering.

Lemma insort_permutation {A : Type} (lt : A -> A -> bool) (x : A) (l : list A) :
  Permutation (Py.insort lt x l) (x :: l).
Proof.
  induction l as [|h t IH]; cbn [Py.insort]; [reflexivity|].
  destruct (lt x h); [reflexivity|].
  rewrite IH. apply perm_swap.
Qed.

Lemma sort_perm {A : Type} (lt : A -> A -> bool) (l acc : list A) :
  Permutation (fold_left (fun acc x => Py.insort lt x acc) l acc) (acc ++ l).
Proof.
  revert acc. induction l as [|x l IH]; intros acc; cbn [fold_left].
  - rewrite app_nil_r. reflexivity.
  - rewrite IH, insort_permutation. apply Permutation_middle.
Qed.

(** Sorting only reorders, whatever the keys are. *)
Lemma sorted_perm {A : Type} (key : A -> float) (reverse : bool) (l : list A) :
  Permutation (Py.sorted key reverse l) l.
Proof.
  unfold Py.sorted, Py.sort. destruct reverse.
  - rewrite <- Permutation_rev, sort_perm. cbn [app]. rewrite <- Permutation_rev.
    reflexivity.
  - rewrite sort_perm. reflexivity.
Qed.

End Reordering.

Section Ranking.

Context {A : Type} (key : A -> float).

Let lt (x y : A) : bool := (key x <? key y)%float.

Local Abbreviation numeric := (numeric key).
Local Abbreviation nondecreasing := (nondecreasing key).
Local Abbreviation nonincreasing := (nonincreasing key).
Local Abbreviation same_key := (same_key key).

Lemma lt_trans_nd (x h y : A) :
  F64.number (key y) -> lt x h = true -> nondecreasing h y -> lt x y = true.
Proof.
  unfold nondecreasing, lt. intros Ny Hxh Hhy.
  apply F64Facts.ltb_true in Hxh. destruct Hxh as (Nx & Nh & K).
  apply F64Facts.ltb_true. repeat split; auto.
  apply (F64Facts.ltb_false_iff _ _ Ny Nh) in Hhy.
  destruct (F64Facts.klt_cases (F64.fkey (key h)) (F64.fkey (key y))) as [C|[C|C]].
  - exact (F64Facts.klt_trans _ _ _ K C).
  - rewrite <- C. exact K.
  - contradiction.
Qed.

Lemma insort_sorted (x : A) (l : list A) :
  numeric l ->
  StronglySorted nondecreasing l -> StronglySorted nondecreasing (Py.insort lt x l).
Proof.
  intros N S. induction S as [|h t S IH F]; cbn [Py.insort].
  - repeat constructor.
  - apply Forall_cons_iff in N. destruct N as [Nh Nt].
    destruct (lt x h) eqn:E.
    + constructor; [constructor; assumption|].
      constructor.
      * unfold nondecreasing, lt. apply F64Facts.ltb_asym. exact E.
      * rewrite Forall_forall in F, Nt |- *. intros y Hy.
        unfold nondecreasing, lt. apply F64Facts.ltb_asym.
        apply (lt_trans_nd x h y); auto.
    + constructor; [apply IH; exact Nt|].
      rewrite Forall_forall in F |- *. intros y Hy.
      apply (Permutation_in _ (insort_permutation lt x t)) in Hy. destruct Hy as [<- | Hy].
      * exact E.
      * apply F. exact Hy.
Qed.

Lemma same_key_cons (v : float) (a : A) (l : list A) :
  same_key v (a :: l) = if (key a =? v)%float then a :: same_key v l else same_key v l.
Proof. reflexivity. Qed.

Lemma insort_same_key (v : float) (x : A) (l : list A) :
  numeric l ->
  StronglySorted nondecreasing l ->
  same_key v (Py.insort lt x l) = same_key v l ++ same_key v [x].
Proof.
  intros N S. induction S as [|h t S IH F]; cbn [Py.insort]; [reflexivity|].
  apply Forall_cons_iff in N. destruct N as [Nh Nt].
  destruct (lt x h) eqn:E.
  - rewrite (same_key_cons v x (h :: t)), (same_key_cons v x []).
    destruct (key x =? v)%float eqn:P.
    + assert (Z : same_key v (h :: t) = []).
      { unfold same_key. apply filter_none. intros y Hy.
        assert (L : lt x y = true).
        { destruct Hy as [<- | Hy]; [exact E|].
          rewrite Forall_forall in F, Nt.
          apply (lt_trans_nd x h y); auto. }
        unfold lt in L. apply F64Facts.ltb_true in L. destruct L as (_ & _ & K).
        destruct (key y =? v)%float eqn:Q; [|reflexivity].
        apply F64Facts.eqb_true in P, Q.
        destruct P as (_ & _ & P), Q as (_ & _ & Q).
        rewrite P, <- Q in K. destruct (F64Facts.klt_irrefl _ K). }
      rewrite Z. reflexivity.
    + cbn [same_key filter]. rewrite app_nil_r. reflexivity.
  - rewrite (same_key_cons v h (Py.insort lt x t)), (same_key_cons v h t), (IH Nt).
    destruct (key h =? v)%float; reflexivity.
Qed.

Lemma sort_acc (l acc : list A) :
  numeric acc -> numeric l -> StronglySorted nondecreasing acc ->
  let out := fold_left (fun acc x => Py.insort lt x acc) l acc in
  StronglySorted nondecreasing out
  /\ Permutation out (acc ++ l)
  /\ forall v, same_key v out = same_key v acc ++ same_key v l.
Proof.
  revert acc. induction l as [|x l IH]; intros acc Na Nl S; cbn [fold_left].
  - rewrite app_nil_r. repeat split; auto. intros v. rewrite app_nil_r. reflexivity.
  - apply Forall_cons_iff in Nl. destruct Nl as [Nx Nl].
    assert (Na' : numeric (Py.insort lt x acc)).
    { unfold numeric. rewrite Forall_forall. intros y Hy.
      apply (Permutation_in _ (insort_permutation lt x acc)) in Hy.
      destruct Hy as [<- | Hy]; [exact Nx|].
      unfold numeric in Na. rewrite Forall_forall in Na. auto. }
    destruct (IH (Py.insort lt x acc) Na' Nl (insort_sorted x acc Na S)) as (S' & P' & K').
    split; [exact S'|]. split.
    + rewrite P', (insort_permutation lt). apply Permutation_middle.
    + intros v. rewrite K', insort_same_key by assumption.
      rewrite <- app_assoc. f_equal.
      change (x :: l) with ([x] ++ l). unfold same_key. rewrite filter_app. reflexivity.
Qed.

Lemma strongly_sorted_snoc (R : A -> A -> Prop) (l : list A) (a : A) :
  StronglySorted R l -> Forall (fun x => R x a) l -> StronglySorted R (l ++ [a]).
Proof.
  intros S. induction S as [|h t S IH F]; intros H; cbn [app].
  - repeat constructor.
  - apply Forall_cons_iff in H. destruct H as [Hh Ht].
    constructor; [apply IH; exact Ht|].
    apply Forall_app. split; [exact F|]. constructor; [exact Hh|constructor].
Qed.

Lemma strongly_sorted_rev (R : A -> A -> Prop) (l : list A) :
  StronglySorted R l -> StronglySorted (fun a b => R b a) (rev l).
Proof.
  intros S. induction S as [|h t S IH F]; cbn [rev]; [constructor|].
  apply strongly_sorted_snoc; [exact IH|].
  rewrite Forall_forall in F |- *. intros y Hy. apply F. apply in_rev. exact Hy.
Qed.

Lemma strongly_sorted_impl (R R' : A -> A -> Prop) (l : list A) :
  StronglySorted R l ->
  (forall a b, In a l -> In b l -> R a b -> R' a b) ->
  StronglySorted R' l.
Proof.
  intros S. induction S as [|h t S IH F]; intros H; [constructor|].
  constructor.
  - apply IH. intros a b Ia Ib. apply H; right; assumption.
  - rewrite Forall_forall in F |- *. intros y Hy.
    apply H; [left; reflexivity | right; exact Hy | apply F; exact Hy].
Qed.

Lemma strongly_sorted_adjacent (R : A -> A -> Prop) (l : list A) (i : nat) (a b : A) :
  StronglySorted R l ->
  nth_error l i = Some a -> nth_error l (S i) = Some b -> R a b.
Proof.
  intros S. revert i. induction S as [|h t S IH F]; intros i Ha Hb.
  - destruct i; discriminate.
  - destruct i as [|i].
    + cbn in Ha, Hb. inversion Ha; subst h.
      rewrite Forall_forall in F. apply F. apply (nth_error_In t 0). exact Hb.
    + apply (IH i); assumption.
Qed.

(** [sorted(l, key=key, reverse=True)] on keys that are numbers: a
    permutation of [l] in descending order of key that keeps items of equal
    key in the order of [l]. *)
Lemma sorted_reverse_spec (l : list A) :
  numeric l ->
  let out := Py.sorted key true l in
  Permutation out l
  /\ StronglySorted nonincreasing out
  /\ forall v, same_key v out = same_key v l.
Proof.
  intros N out.
  assert (Nr : numeric (rev l)).
  { unfold numeric in *. rewrite Forall_forall in *. intros y Hy. apply N.
    apply in_rev. exact Hy. }
  destruct (sort_acc (rev l) [] (Forall_nil _) Nr (SSorted_nil _)) as (S & P & K).
  cbn [app] in P, K.
  assert (No : numeric (fold_left (fun acc x => Py.insort lt x acc) (rev l) [])).
  { unfold numeric in *. rewrite Forall_forall in *. intros y Hy. apply Nr.
    apply (Permutation_in _ P). exact Hy. }
  unfold out, Py.sorted, Py.sort. fold lt. repeat split.
  - rewrite <- Permutation_rev, P, <- Permutation_rev. reflexivity.
  - apply strongly_sorted_rev in S.
    apply (strongly_sorted_impl _ _ _ S).
    intros a b Ia Ib H. unfold nonincreasing.
    unfold numeric in No. rewrite Forall_forall in No.
    apply F64Facts.ltb_false_leb; [apply No, in_rev, Ia | apply No, in_rev, Ib | exact H].
  - intros v. unfold same_key. rewrite filter_rev.
    fold (same_key v (fold_left (fun acc x => Py.insort lt x acc) (rev l) [])).
    rewrite K. unfold same_key. cbn [filter app].
    rewrite filter_rev, rev_involutive. reflexivity.
Qed.

End Ranking.

(* ===================================================================== *)
(** ** The signal steps of [filter_pairs_with_signals] *)
(* ===================================================================== *)

Section SignalSteps.

Lemma collect_found (v : Variant) (items : Py.dict DataFrame) (found : list SignalMatch) :
  collect v items found = Ok (found ++ found_matches v items).
Proof.
  revert found. induction items as [|[sym df] rest IH]; intros found.
  - destruct v; cbn; rewrite app_nil_r; reflexivity.
  - destruct (evaluate_total v sym df) as [r E].
    assert (U : collect v ((sym, df) :: rest) found =
                match r with
                | Some m => collect v rest (found ++ [m])
                | None => collect v rest found
                end).
    { destruct v; cbn [collect Ccxt.collect Binance.collect evaluate] in *;
        rewrite E; reflexivity. }
    rewrite U. unfold found_matches. cbn [flat_map fst snd]. rewrite E.
    fold (found_matches v rest).
    destruct r as [m|]; rewrite IH; [rewrite <- app_assoc|]; reflexivity.
Qed.

Lemma signal_steps_eq (v : Variant) (self : Strategy) :
  signal_steps v self =
    (Ok (Py.sorted volume true (found_matches v (data self))),
     set_matching_pairs self (Py.sorted volume true (found_matches v (data self)))).
Proof.
  pose proof (collect_found v (data self) []) as C. cbn [app] in C.
  destruct v; cbn [signal_steps collect] in *;
    unfold Ccxt.filter_pairs_with_signals, Binance.filter_steps; rewrite C; reflexivity.
Qed.

Lemma evaluate_symbol (v : Variant) (sym : string) (df : DataFrame) (m : SignalMatch) :
  evaluate v sym df = Ok (Some m) -> symbol m = sym.
Proof.
  intros H. destruct (Nat.lt_ge_cases (List.length df) 30) as [S|S].
  - rewrite evaluate_short in H by exact S. discriminate.
  - destruct (two_last df ltac:(lia)) as (pre & a & b & ->).
    rewrite evaluate_long in H by exact S.
    destruct (Pd.isna (MA28 b)); [discriminate|].
    destruct (rows_signal a b); [|discriminate].
    inversion H. reflexivity.
Qed.

Lemma in_found_matches (v : Variant) (items : Py.dict DataFrame) (m : SignalMatch) :
  In m (found_matches v items) <->
  exists sym df, In (sym, df) items /\ evaluate v sym df = Ok (Some m).
Proof.
  unfold found_matches. rewrite in_flat_map. split.
  - intros ([sym df] & I & H). cbn [fst snd] in H.
    destruct (evaluate v sym df) as [[m'|]|] eqn:E.
    + destruct H as [H|[]]. subst m'. eauto.
    + destruct H.
    + destruct H.
  - intros (sym & df & I & E). exists (sym, df). split; [exact I|].
    cbn [fst snd]. rewrite E. left. reflexivity.
Qed.

End SignalSteps.

(* ===================================================================== *)
(** ** Fetching *)
(* ===================================================================== *)

Section Fetching.

Lemma set_data_same (self : Strategy) : set_data self (data self) = self.
Proof. destruct self; reflexivity. Qed.

Lemma fetch_symbol_eq (v : Variant) (ex : Exchange v) (self : Strategy) (out : list Line) (sym : string) :
  fetch_symbol v ex (self, out) sym =
    (set_data self (stored (candles v ex) (data self) sym),
     out ++ lines_for v (candles v ex) sym).
Proof.
  unfold stored, lines_for.
  destruct v; cbn [fetch_symbol candles] in *;
    unfold Ccxt.fetch_symbol, Binance.fetch_symbol;
    match goal with |- context [match ?f ex sym with _ => _ end] =>
      destruct (f ex sym) as [[|c rows]|e] end;
    cbn [List.length Nat.ltb Nat.leb]; rewrite ?set_data_same; reflexivity.
Qed.

Lemma fetch_loop_eq (v : Variant) (ex : Exchange v) (symbols : list string) (self : Strategy) (out : list Line) :
  fold_left (fetch_symbol v ex) symbols (self, out) =
    (set_data self (fold_left (stored (candles v ex)) symbols (data self)),
     out ++ flat_map (lines_for v (candles v ex)) symbols).
Proof.
  revert self out. induction symbols as [|s rest IH]; intros self out.
  - cbn. rewrite set_data_same, app_nil_r. reflexivity.
  - cbn [fold_left flat_map]. rewrite fetch_symbol_eq, IH. cbn [data set_data].
    rewrite <- app_assoc. reflexivity.
Qed.

Lemma fetch_data_eq (v : Variant) (ex : Exchange v) (limit_pairs : option Z) (self : Strategy) :
  let symbols := selected limit_pairs (fst (fetch_all_pairs v ex self)) in
  let d := fold_left (stored (candles v ex)) symbols (data self) in
  fetch_data v ex limit_pairs self =
    (List.length d, set_data self d,
     snd (fetch_all_pairs v ex self) ++ header v (List.length symbols)
       ++ flat_map (lines_for v (candles v ex)) symbols).
Proof.
  intros symbols d. subst symbols d. unfold selected.
  destruct v; cbn [fetch_data fetch_all_pairs candles header] in *;
    unfold Ccxt.fetch_data, Binance.fetch_data;
    match goal with |- context [let (_, _) := ?p in _] =>
      destruct p as [all_symbols out0] end;
    cbn [fst snd];
    [ match goal with |- context [fold_left _ ?l (?s, ?o)] =>
        pose proof (fetch_loop_eq ccxt_script ex l s o) as E end
    | match goal with |- context [fold_left _ ?l (?s, ?o)] =>
        pose proof (fetch_loop_eq binance_script ex l s o) as E end ];
    cbn [fetch_symbol candles] in E; rewrite E; cbn [data set_data];
    rewrite <- ?app_assoc; reflexivity.
Qed.

Lemma main_eq (v : Variant) (ex : Exchange v) (quote : string) :
  main v ex quote =
    (fst (signal_steps v (snd (fst (fetch_data v ex None (init quote))))),
     snd (signal_steps v (snd (fst (fetch_data v ex None (init quote))))),
     snd (fetch_data v ex None (init quote))).
Proof.
  destruct v; cbn [main signal_steps fetch_data] in *;
    unfold Ccxt.main, Binance.main, Binance.filter_pairs_with_signals.
  - destruct (Ccxt.fetch_data ex None (init quote)) as [[n self] out]. cbn [fst snd].
    destruct (Ccxt.filter_pairs_with_signals self); reflexivity.
  - destruct (Binance.fetch_data ex None (init quote)) as [[n self] out]. cbn [fst snd].
    destruct (Binance.filter_steps self); reflexivity.
Qed.

Lemma attempted_app (a b : list Line) : attempted (a ++ b) = attempted a ++ attempted b.
Proof. unfold attempted. apply flat_map_app. Qed.

Lemma attempted_lines (v : Variant) (ex : Exchange v) (symbols : list string) :
  attempted (flat_map (lines_for v (candles v ex)) symbols) = symbols.
Proof.
  induction symbols as [|s rest IH]; [reflexivity|].
  cbn [flat_map]. rewrite attempted_app, IH. unfold lines_for.
  destruct (candles v ex s) as [[|c rows]|e]; try reflexivity.
  destruct v; reflexivity.
Qed.

Lemma attempted_listing (v : Variant) (ex : Exchange v) (self : Strategy) :
  attempted (snd (fetch_all_pairs v ex self)) = [].
Proof.
  destruct v; cbn [fetch_all_pairs] in *;
    unfold Ccxt.fetch_all_pairs, Binance.fetch_all_pairs.
  - destruct (Ccxt.try_listing ex self); reflexivity.
  - destruct (Binance.try_listing ex self); reflexivity.
Qed.

Lemma attempted_fetch_data (v : Variant) (ex : Exchange v) (limit_pairs : option Z) (self : Strategy) :
  attempted (snd (fetch_data v ex limit_pairs self))
  = selected limit_pairs (fst (fetch_all_pairs v ex self)).
Proof.
  rewrite fetch_data_eq. cbn [snd].
  rewrite !attempted_app, attempted_listing, attempted_lines.
  destruct v; reflexivity.
Qed.

End Fetching.

Section Dictionary.

Context {V : Type}.

Lemma get_setitem_same (d : Py.dict V) (k : string) (x : V) :
  Py.get (Py.setitem d k x) k = Some x.
Proof.
  induction d as [|[k' x'] d IH]; cbn [Py.setitem Py.get].
  - rewrite String.eqb_refl. reflexivity.
  - destruct (String.eqb k' k) eqn:E; cbn [Py.get]; rewrite E; [reflexivity | exact IH].
Qed.

Lemma get_setitem_other (d : Py.dict V) (k k' : string) (x : V) :
  k <> k' -> Py.get (Py.setitem d k x) k' = Py.get d k'.
Proof.
  intros N. induction d as [|[k0 x0] d IH]; cbn [Py.setitem Py.get].
  - replace (String.eqb k k') with false by (symmetry; apply String.eqb_neq; exact N).
    reflexivity.
  - destruct (String.eqb k0 k) eqn:E; cbn [Py.get].
    + apply String.eqb_eq in E. subst k0.
      replace (String.eqb k k') with false by (symmetry; apply String.eqb_neq; exact N).
      reflexivity.
    + rewrite IH. reflexivity.
Qed.

Lemma get_some_in (d : Py.dict V) (k : string) (x : V) :
  Py.get d k = Some x -> In (k, x) d.
Proof.
  induction d as [|[k' x'] d IH]; cbn [Py.get]; [discriminate|].
  destruct (String.eqb k' k) eqn:E.
  - apply String.eqb_eq in E. intros H. inversion H. subst. left. reflexivity.
  - intros H. right. apply IH. exact H.
Qed.


End Dictionary.

Section Stored.

Variable rows_of : string -> res (list Candle).

Lemma get_stored_same (d : Py.dict DataFrame) (s : string) :
  Py.get (stored rows_of d s) s =
    match rows_of s with
    | Ok (c :: rows) => Some (with_indicators (c :: rows))
    | _ => Py.get d s
    end.
Proof.
  unfold stored. destruct (rows_of s) as [[|c rows]|e]; try reflexivity.
  apply get_setitem_same.
Qed.

Lemma get_stored_other (d : Py.dict DataFrame) (x s : string) :
  x <> s -> Py.get (stored rows_of d x) s = Py.get d s.
Proof.
  intros N. unfold stored. destruct (rows_of x) as [[|c rows]|e]; try reflexivity.
  apply get_setitem_other. exact N.
Qed.

(** A symbol whose candles came back ends in [self.data] with its frame. *)
Lemma get_fetched (symbols : list string) (d : Py.dict DataFrame)
  (s : string) (c : Candle) (rows : list Candle) :
  In s symbols -> rows_of s = Ok (c :: rows) ->
  Py.get (fold_left (stored rows_of) symbols d) s = Some (with_indicators (c :: rows)).
Proof.
  intros I R. revert d I. induction symbols as [|x rest IH]; intros d I; [destruct I|].
  cbn [fold_left]. destruct (in_dec string_dec s rest) as [Y|N].
  - apply IH. exact Y.
  - destruct I as [-> | I]; [|contradiction].
    clear IH. assert (G : Py.get (stored rows_of d s) s = Some (with_indicators (c :: rows))).
    { rewrite get_stored_same, R. reflexivity. }
    revert G. generalize (stored rows_of d s). clear d.
    induction rest as [|y rest IH]; intros d G; [exact G|].
    cbn [fold_left]. apply IH.
    + intros K. apply N. right. exact K.
    + rewrite get_stored_other; [exact G|].
      intros ->. apply N. left. reflexivity.
Qed.

(** A symbol whose request raised, or that has no candle, is left as it
    was. *)
Lemma get_not_fetched (symbols : list string) (d : Py.dict DataFrame) (s : string) :
  (forall c rows, rows_of s <> Ok (c :: rows)) ->
  Py.get (fold_left (stored rows_of) symbols d) s = Py.get d s.
Proof.
  intros R. revert d. induction symbols as [|x rest IH]; intros d; [reflexivity|].
  cbn [fold_left]. rewrite IH.
  destruct (string_dec x s) as [-> | N].
  - rewrite get_stored_same. destruct (rows_of s) as [[|c rows]|e]; try reflexivity.
    destruct (R c rows eq_refl).
  - apply get_stored_other. exact N.
Qed.

End Stored.

(* ===================================================================== *)
(** ** Listing the pairs *)
(* ===================================================================== *)

Section Listing.

Lemma select_symbols_exact (quote : string) (entries : list (string * string * string)) :
  Binance.select_symbols quote
    (map (fun t : string * string * string =>
            {| Binance.item_symbol := Some (fst (fst t));
               Binance.item_quoteAsset := Some (snd (fst t));
               Binance.item_status := Some (snd t) |}) entries)
  = Ok (map (fun t => fst (fst t)) (filter (tradable_in quote) entries)).
Proof.
  induction entries as [|[[s q] st] rest IH]; [reflexivity|].
  cbn [map Binance.select_symbols Binance.lookup bind fst snd
       Binance.item_symbol Binance.item_quoteAsset Binance.item_status filter].
  unfold tradable_in at 1. cbn [fst snd].
  destruct (String.eqb q quote); cbn [bind andb].
  - destruct (String.eqb st "TRADING"); cbn [bind map]; rewrite IH; reflexivity.
  - exact IH.
Qed.

(** The Binance variant lists exactly the tradable pairs of the quote
    currency of a well-formed payload, in the order of the payload. *)
Lemma binance_listing_exact
  (api : Binance.Api) (self : Strategy) (entries : list (string * string * string)) :
  Binance.exchangeInfo api = Ok (payload entries) ->
  fst (Binance.fetch_all_pairs api self)
  = map (fun t => fst (fst t)) (filter (tradable_in (quote_currency self)) entries).
Proof.
  intros H. unfold Binance.fetch_all_pairs, Binance.try_listing. rewrite H.
  unfold payload. cbn [bind Binance.lookup Binance.info_symbols].
  rewrite select_symbols_exact. reflexivity.
Qed.

(** The ccxt variant reads the keys of the markets only. *)
Lemma ccxt_listing_reads_keys (ex : Ccxt.Exchange) (self : Strategy) (markets : Py.dict Ccxt.Market) :
  Ccxt.load_markets ex = Ok markets ->
  fst (Ccxt.fetch_all_pairs ex self)
  = filter (fun sym => Py.endswith sym ("/" ++ quote_currency self)%string) (map fst markets).
Proof.
  intros H. unfold Ccxt.fetch_all_pairs, Ccxt.try_listing. rewrite H. reflexivity.
Qed.

End Listing.

(* ===================================================================== *)
(** ** Runs on the sample data *)
(* ===================================================================== *)

(** The series of the spec's end-to-end example: stop loss 98 and a risk of
    about 7.14 percent. *)
Example evaluate_series_A :
  evaluate binance_script "AUSDT" (with_indicators Sample.series_A)
  = Ok (Some {| symbol := "AUSDT"; last_close := 105; last_date := 39; ma28 := 100;
                stop_loss := 98; risk_pct := ((105 / 98 - 1) * 100)%float;
                volume := 500000 |})
  /\ (714 / 100 <? (105 / 98 - 1) * 100)%float = true
  /\ ((105 / 98 - 1) * 100 <? 715 / 100)%float = true.
Proof. repeat split; vm_compute; reflexivity. Qed.

(** The sample object: the larger volume comes first, the two equal volumes
    keep their order, the short series gives nothing. *)
Example ranking_of_sample_strategy :
  option_map (map symbol)
    (match fst (signal_steps ccxt_script Sample.strategy) with
     | Ok ranked => Some ranked
     | Raise _ => None
     end)
  = Some ["BUSDT"; "AUSDT"; "CUSDT"].
Proof. vm_compute. reflexivity. Qed.

(** The scan on the exchange where ["BUSDT"] cannot be fetched: two matches
    and one error line. *)
Example scan_of_partial_exchange :
  let run := main binance_script SampleExchange.api_partial "USDT" in
  option_map (map symbol)
    (match fst (fst run) with Ok ranked => Some ranked | Raise _ => None end)
  = Some ["AUSDT"; "CUSDT"]
  /\ snd run = [ FoundPairs 3 "USDT"; FetchingDataFor 3; TimeInterval;
                 DaysOfData "AUSDT" 40;
                 ErrorFetching "BUSDT" SampleExchange.refused;
                 DaysOfData "CUSDT" 40 ].
Proof. split; vm_compute; reflexivity. Qed.

(* ===================================================================== *)
(** ** The claims *)
(* ===================================================================== *)

(** C1. For a series of 30 candles or more whose 28-period moving average is
    a number at the last index, the loop body of [filter_pairs_with_signals]
    (either variant) yields a match exactly when the last two candles close
    above their open and the last close is above the moving average; it
    yields nothing otherwise, and the match holds the symbol, the last
    close, the last timestamp, the last moving average, the smaller of the
    two lows as stop loss, the risk percentage and the last volume. *)
Theorem evaluate_match_iff_signal
  (v : Variant) (sym : string) (pre : list Candle) (second last : Candle) (ma : float) :
  let ohlcv := pre ++ [second; last] in
  let df := with_indicators ohlcv in
  (30 <= List.length ohlcv)%nat ->
  nth_error (map MA28 df) (List.length ohlcv - 1) = Some ma ->
  Pd.isna ma = false ->
  ((exists m, evaluate v sym df = Ok (Some m)) <-> entry_signal second last ma = true)
  /\ (evaluate v sym df = Ok None <-> entry_signal second last ma = false)
  /\ (forall m, evaluate v sym df = Ok (Some m) ->
                m = expected_match sym second last ma
                /\ stop_loss m = Py.min (Low last) (Low second)
                /\ (F64.number (Low last) -> F64.number (Low second) ->
                    (stop_loss m <=? Low last)%float = true
                    /\ (stop_loss m <=? Low second)%float = true
                    /\ (stop_loss m = Low last \/ stop_loss m = Low second))).
Proof.
  intros ohlcv df L Hma Hnum.
  destruct (with_indicators_last_two pre second last) as (rows & ma2 & ma1 & E & Hma1).
  fold ohlcv in E, Hma1. fold df in E, Hma1.
  assert (ma1 = ma) by congruence. subst ma1.
  assert (Ev : evaluate v sym df =
               Ok (if entry_signal second last ma
                   then Some (expected_match sym second last ma) else None)).
  { rewrite E. rewrite evaluate_long.
    - cbn [MA28]. rewrite Hnum. unfold rows_signal, entry_signal. cbn [is_green MA28 candle].
      destruct ((Open last <? Close last)%float && (Open second <? Close second)%float
                && (ma <? Close last)%float); reflexivity.
    - rewrite <- E. unfold df. rewrite with_indicators_length. exact L. }
  rewrite Ev. split; [|split].
  - destruct (entry_signal second last ma); split; intros H.
    + reflexivity.
    + eexists. reflexivity.
    + destruct H as (m & H). discriminate.
    + discriminate.
  - destruct (entry_signal second last ma); split; intros H;
      try discriminate; reflexivity.
  - intros m H. destruct (entry_signal second last ma); [|discriminate].
    inversion H. split; [reflexivity|]. split; [reflexivity|].
    intros N1 N2. cbn [stop_loss expected_match]. apply F64Facts.py_min_least; assumption.
Qed.

(** C1, on the sample series: the hypotheses hold there. *)
Lemma evaluate_match_iff_signal_witness :
  (30 <= List.length Sample.series_A)%nat
  /\ ((exists m, evaluate binance_script "AUSDT" (with_indicators Sample.series_A)
                 = Ok (Some m))
      <-> entry_signal (Sample.day 98 38) (Sample.day 98 39) 100 = true).
Proof.
  split; [vm_compute; lia|].
  apply (evaluate_match_iff_signal binance_script "AUSDT"
           (map (Sample.day 98) (seq 0 38)) (Sample.day 98 38) (Sample.day 98 39) 100).
  - vm_compute. lia.
  - vm_compute. reflexivity.
  - vm_compute. reflexivity.
Defined.

(** C2. A series of fewer than 30 candles, or one whose moving average is
    [NaN] at the last index, contributes no match and raises no error. *)
Theorem evaluate_no_match_without_preconditions
  (v : Variant) (sym : string) (df : DataFrame) :
  (List.length df < 30)%nat
  \/ (exists last, Py.getitem df (-1) = Ok last /\ Pd.isna (MA28 last) = true) ->
  evaluate v sym df = Ok None.
Proof.
  intros [H | (last & Hl & Hn)].
  - apply evaluate_short. exact H.
  - destruct (Nat.lt_ge_cases (List.length df) 30) as [S|S];
      [apply evaluate_short; exact S|].
    destruct (two_last df ltac:(lia)) as (pre & a & b & ->).
    rewrite evaluate_long by exact S.
    assert (E : Py.getitem (pre ++ [a; b]) (-1) = Ok b).
    { change [a; b] with ([a] ++ [b]). rewrite app_assoc. apply getitem_last. }
    assert (b = last) by congruence. subst b.
    rewrite Hn. reflexivity.
Qed.

(** C2, on a series of 29 candles. *)
Lemma evaluate_no_match_without_preconditions_witness :
  evaluate ccxt_script "AUSDT" (with_indicators Sample.series_short) = Ok None.
Proof.
  apply (evaluate_no_match_without_preconditions ccxt_script "AUSDT"
           (with_indicators Sample.series_short)).
  left. vm_compute. lia.
Defined.

(** C3 as the spec states it fails: on the series whose day-38 low is zero
    both variants emit the match, with a stop loss of zero and an infinite
    risk percentage. *)
Lemma zero_stop_loss_match_is_emitted :
  evaluate ccxt_script "ZUSDT" (with_indicators Sample.series_Z)
    = Ok (Some {| symbol := "ZUSDT"; last_close := 105; last_date := 39; ma28 := 100;
                  stop_loss := 0; risk_pct := infinity; volume := 500000 |})
  /\ evaluate binance_script "ZUSDT" (with_indicators Sample.series_Z)
    = Ok (Some {| symbol := "ZUSDT"; last_close := 105; last_date := 39; ma28 := 100;
                  stop_loss := 0; risk_pct := infinity; volume := 500000 |}).
Proof. split; vm_compute; reflexivity. Qed.

(** C3, amended. The loop body raises no error; the risk percentage of an
    emitted match is [(last_close / stop_loss - 1) * 100] in binary64
    arithmetic; a stop loss of zero neither drops nor flags the match: a
    frame of 30 rows or more that shows the signal yields its match whatever
    the lows are, and with a stop loss of zero the risk percentage is an
    infinity or [NaN]. *)
Theorem risk_pct_formula (v : Variant) (sym : string) (df : DataFrame) :
  (exists r, evaluate v sym df = Ok r)
  /\ (forall m, evaluate v sym df = Ok (Some m) ->
        risk_pct m = ((last_close m / stop_loss m - 1) * 100)%float
        /\ ((stop_loss m =? 0)%float = true -> is_finite (risk_pct m) = false))
  /\ (forall pre second last,
        df = pre ++ [second; last] ->
        (30 <= List.length df)%nat ->
        Pd.isna (MA28 last) = false ->
        rows_signal second last = true ->
        exists m, evaluate v sym df = Ok (Some m)
                  /\ stop_loss m = Py.min (Low (candle last)) (Low (candle second))).
Proof.
  split; [apply evaluate_total|]. split.
  - intros m H.
    assert (R : risk_pct m = ((last_close m / stop_loss m - 1) * 100)%float).
    { destruct (Nat.lt_ge_cases (List.length df) 30) as [S|S].
      - rewrite evaluate_short in H by exact S. discriminate.
      - destruct (two_last df ltac:(lia)) as (pre & a & b & ->).
        rewrite evaluate_long in H by exact S.
        destruct (Pd.isna (MA28 b)); [discriminate|].
        destruct (rows_signal a b); [|discriminate].
        inversion H. reflexivity. }
    split; [exact R|].
    intros Z. rewrite R. apply F64Facts.special_not_finite.
    apply F64Facts.mul_hundred_special, F64Facts.sub_one_special,
      F64Facts.div_by_zero_special.
    exact Z.
  - intros pre second last -> L N S.
    rewrite evaluate_long by exact L. rewrite N, S.
    eexists. split; reflexivity.
Qed.

(** C3, amended, on the series whose day-38 low is zero. *)
Lemma risk_pct_formula_witness :
  risk_pct {| symbol := "ZUSDT"; last_close := 105; last_date := 39; ma28 := 100;
              stop_loss := 0; risk_pct := infinity; volume := 500000 |}
  = ((105 / 0 - 1) * 100)%float
  /\ is_finite infinity = false.
Proof.
  destruct (risk_pct_formula binance_script "ZUSDT" (with_indicators Sample.series_Z))
    as (_ & H & _).
  destruct (H {| symbol := "ZUSDT"; last_close := 105; last_date := 39; ma28 := 100;
                 stop_loss := 0; risk_pct := infinity; volume := 500000 |})
    as (R & F); [vm_compute; reflexivity|].
  split; [exact R | apply F; reflexivity].
Defined.

(** C4 as the spec states it fails: with the listing out of reach, or its
    payload malformed, the scan returns the empty list, as it does on an
    exchange that lists a pair without signal; the bot sends the same
    texts in all three cases. *)
Lemma failed_listing_returns_empty_result :
  try_listing binance_script SampleExchange.api_down (init "USDT")
    = Raise SampleExchange.refused
  /\ try_listing binance_script SampleExchange.api_malformed (init "USDT")
    = Raise (KeyError "symbols")
  /\ try_listing binance_script SampleExchange.api_quiet (init "USDT") = Ok ["QUSDT"]
  /\ fst (fst (main binance_script SampleExchange.api_down "USDT")) = Ok []
  /\ fst (fst (main binance_script SampleExchange.api_malformed "USDT")) = Ok []
  /\ fst (fst (main binance_script SampleExchange.api_quiet "USDT")) = Ok []
  /\ fst (fst (main ccxt_script SampleExchange.ccxt_down "USDT")) = Ok []
  /\ Bot.scheduled_scan SampleExchange.api_down SampleExchange.api_down
     = Bot.scheduled_scan SampleExchange.api_quiet SampleExchange.api_quiet.
Proof. repeat split; vm_compute; reflexivity. Qed.

(** C4, amended. When the listing fails, [fetch_all_pairs] prints the error
    and returns no symbol; the scan does not abort: it fetches nothing,
    leaves the object as it was built and returns the empty list. *)
Theorem failed_listing_gives_empty_scan
  (v : Variant) (ex : Exchange v) (quote : string) (e : Exn) :
  try_listing v ex (init quote) = Raise e ->
  fetch_all_pairs v ex (init quote) = ([], [ErrorFetchingMarketPairs e])
  /\ main v ex quote = (Ok [], init quote, ErrorFetchingMarketPairs e :: header v 0).
Proof.
  intros H.
  assert (F : fetch_all_pairs v ex (init quote) = ([], [ErrorFetchingMarketPairs e])).
  { destruct v; cbn [fetch_all_pairs try_listing] in *;
      unfold Ccxt.fetch_all_pairs, Binance.fetch_all_pairs; rewrite H; reflexivity. }
  split; [exact F|].
  rewrite main_eq, fetch_data_eq, F. cbn [fst snd selected Py.truthy fold_left].
  rewrite signal_steps_eq. destruct v; reflexivity.
Qed.

(** C4, amended, with the service out of reach. *)
Lemma failed_listing_gives_empty_scan_witness :
  main binance_script SampleExchange.api_down "USDT"
  = (Ok [], init "USDT",
     [ErrorFetchingMarketPairs SampleExchange.refused; FetchingDataFor 0; TimeInterval]).
Proof.
  apply (failed_listing_gives_empty_scan binance_script SampleExchange.api_down "USDT"
           SampleExchange.refused).
  reflexivity.
Defined.

(** C5. When the volumes of the matches are numbers, the list that
    [filter_pairs_with_signals] returns holds the matches the loop found, in
    descending order of volume (each volume is at least the next one), and
    matches of equal volume keep the order in which the loop found them. *)
Theorem ranked_by_volume_descending_stable (v : Variant) (self : Strategy) :
  let found := found_matches v (data self) in
  numeric volume found ->
  exists ranked,
    signal_steps v self = (Ok ranked, set_matching_pairs self ranked)
    /\ Permutation ranked found
    /\ (forall i a b, nth_error ranked i = Some a -> nth_error ranked (S i) = Some b ->
                      (volume b <=? volume a)%float = true)
    /\ (forall vol, same_key volume vol ranked = same_key volume vol found).
Proof.
  intros found N.
  destruct (sorted_reverse_spec volume found N) as (P & S & K).
  exists (Py.sorted volume true found). split; [apply signal_steps_eq|].
  split; [exact P|]. split; [|exact K].
  intros i a b Ha Hb.
  exact (strongly_sorted_adjacent (nonincreasing volume) _ i a b S Ha Hb).
Qed.

(** C5 on three frames: the volumes are numbers there. *)
Lemma ranked_by_volume_descending_stable_witness :
  exists ranked,
    signal_steps binance_script Sample.strategy
      = (Ok ranked, set_matching_pairs Sample.strategy ranked)
    /\ Permutation ranked (found_matches binance_script (data Sample.strategy))
    /\ (forall i a b, nth_error ranked i = Some a -> nth_error ranked (S i) = Some b ->
                      (volume b <=? volume a)%float = true)
    /\ (forall vol, same_key volume vol ranked
                    = same_key volume vol (found_matches binance_script (data Sample.strategy))).
Proof.
  apply (ranked_by_volume_descending_stable binance_script Sample.strategy).
  vm_compute. repeat constructor.
Defined.

(** C6 does not hold of the ccxt variant: a market that is not active is
    listed when its name ends in the quote currency.  The Binance variant
    filters on the status ([binance_listing_exact]). *)
Theorem ccxt_listing_keeps_halted_pair :
  Py.get SampleExchange.markets "LUNA/USDT"
    = Some {| Ccxt.quote := "USDT"; Ccxt.active := false |}
  /\ fetch_all_pairs ccxt_script SampleExchange.ccxt_exchange (init "USDT")
     = (["BTC/USDT"; "LUNA/USDT"], [FoundPairs 2 "USDT"])
  /\ fetch_all_pairs binance_script SampleExchange.api_partial (init "USDT")
     = (["AUSDT"; "BUSDT"; "CUSDT"], [FoundPairs 3 "USDT"]).
Proof. repeat split; vm_compute; reflexivity. Qed.





(** C9. On the same [self.data] the signal steps of the two variants return
    the same list and leave the same object behind. *)
Theorem variants_filter_agree (self : Strategy) :
  Ccxt.filter_pairs_with_signals self = Binance.filter_steps self
  /\ forall items found, Ccxt.collect items found = Binance.collect items found.
Proof.
  assert (C : forall items found, Ccxt.collect items found = Binance.collect items found).
  { induction items as [|[sym df] rest IH]; intros found; [reflexivity|].
    cbn [Ccxt.collect Binance.collect].
    change (Binance.evaluate sym df) with (Ccxt.evaluate sym df).
    destruct (Ccxt.evaluate sym df) as [[m|]|]; cbn [bind]; auto. }
  split; [|exact C].
  unfold Ccxt.filter_pairs_with_signals, Binance.filter_steps. rewrite C. reflexivity.
Qed.

(** C10. A limit of [0] is no limit: [fetch_data] then does what it does
    without a limit and goes through every listed symbol; a limit [n > 0]
    makes it go through the first [n] listed symbols, in the listed order. *)
Theorem zero_limit_is_no_limit
  (v : Variant) (ex : Exchange v) (self : Strategy) (n : Z) :
  let listed := fst (fetch_all_pairs v ex self) in
  0 < n ->
  fetch_data v ex (Some 0) self = fetch_data v ex None self
  /\ attempted (snd (fetch_data v ex (Some 0) self)) = listed
  /\ attempted (snd (fetch_data v ex (Some n) self)) = firstn (Z.to_nat n) listed.
Proof.
  intros listed Hn. split; [|split].
  - rewrite !fetch_data_eq. reflexivity.
  - rewrite attempted_fetch_data. reflexivity.
  - rewrite attempted_fetch_data. unfold selected, Py.truthy, Py.slice_to.
    replace (n =? 0) with false by (symmetry; apply Z.eqb_neq; lia).
    replace (n <? 0) with false by (symmetry; apply Z.ltb_ge; lia).
    reflexivity.
Qed.

(** C10 on the exchange with three pairs in the quote currency and a limit
    of two. *)
Lemma zero_limit_is_no_limit_witness :
  attempted (snd (fetch_data binance_script SampleExchange.api_partial (Some 0) (init "USDT")))
    = ["AUSDT"; "BUSDT"; "CUSDT"]
  /\ attempted (snd (fetch_data binance_script SampleExchange.api_partial (Some 2) (init "USDT")))
    = ["AUSDT"; "BUSDT"].
Proof.
  destruct (zero_limit_is_no_limit binance_script SampleExchange.api_partial (init "USDT") 2)
    as (_ & Z & P); [lia|].
  split; [exact Z | exact P].
Defined.

(* ===================================================================== *)
(** ** Further properties of the scanner *)
(* ===================================================================== *)

Section ChartFacts.

Lemma ltb_nan_l (x y : float) : Pd.isna x = true -> (x <? y)%float = false.
Proof.
  intros H. destruct (x <? y)%float eqn:E; [|reflexivity].
  apply F64Facts.ltb_true in E. destruct E as (N & _). unfold F64.number in N.
  unfold Pd.isna in H. congruence.
Qed.

Lemma getitem_map_last {A B : Type} (f : A -> B) (l : list A) (a : A) :
  Py.getitem (map f (l ++ [a])) (-1) = Ok (f a).
Proof. rewrite map_app. apply getitem_last. Qed.

Lemma getitem_map_last2 {A B : Type} (f : A -> B) (l : list A) (a b : A) :
  Py.getitem (map f (l ++ [a; b])) (-1) = Ok (f b)
  /\ Py.getitem (map f (l ++ [a; b])) (-2) = Ok (f a).
Proof.
  split.
  - change [a; b] with ([a] ++ [b]). rewrite app_assoc. apply getitem_map_last.
  - rewrite map_app. apply getitem_second_last.
Qed.

Lemma entry_marker_eq (pre : list Row) (second last : Row) :
  Chart.entry_marker (pre ++ [second; last]) =
    Ok (if rows_signal second last
        then Some (Py.min (Low (candle last)) (Low (candle second)))
        else None).
Proof.
  unfold Chart.entry_marker, rows_signal.
  replace (2 <=? List.length (pre ++ [second; last]))%nat with true
    by (symmetry; apply Nat.leb_le; rewrite length_app; cbn; lia).
  destruct (getitem_map_last2 is_green pre second last) as [-> ->].
  destruct (getitem_map_last2 (fun r => Close (candle r)) pre second last) as [-> _].
  destruct (getitem_map_last2 MA28 pre second last) as [-> _].
  destruct (getitem_map_last2 (fun r => Low (candle r)) pre second last) as [-> ->].
  cbn [bind].
  destruct (is_green last); cbn [bind andb]; [|reflexivity].
  destruct (is_green second); cbn [bind andb]; [|reflexivity].
  destruct (MA28 last <? Close (candle last))%float; reflexivity.
Qed.

End ChartFacts.

(** X1. On a frame of 30 rows or more the chart and the filter agree: the
    chart marks an entry signal exactly when the loop body of
    [filter_pairs_with_signals] yields a match, and the stop-loss line is
    drawn at the stop loss of that match. *)
Theorem chart_marker_agrees_with_filter (v : Variant) (sym : string) (df : DataFrame) :
  (30 <= List.length df)%nat ->
  exists r, evaluate v sym df = Ok r
            /\ Chart.entry_marker df = Ok (option_map stop_loss r).
Proof.
  intros L. destruct (two_last df ltac:(lia)) as (pre & a & b & ->).
  rewrite evaluate_long by exact L. rewrite entry_marker_eq.
  eexists. split; [reflexivity|].
  destruct (Pd.isna (MA28 b)) eqn:N.
  - unfold rows_signal. rewrite (ltb_nan_l _ _ N), andb_false_r. reflexivity.
  - destruct (rows_signal a b); reflexivity.
Qed.

(** X1 on the sample series. *)
Lemma chart_marker_agrees_with_filter_witness :
  exists r, evaluate ccxt_script "AUSDT" (with_indicators Sample.series_A) = Ok r
            /\ Chart.entry_marker (with_indicators Sample.series_A)
               = Ok (option_map stop_loss r).
Proof.
  apply (chart_marker_agrees_with_filter ccxt_script "AUSDT"
           (with_indicators Sample.series_A)).
  vm_compute. lia.
Defined.

(** X2. On a frame of fewer than 30 candles whose last two candles show the
    signal (which takes 28 candles, for the moving average to be a number)
    the chart marks the entry and draws the stop-loss line, while the filter
    reports nothing: the chart has no test on the length of the series. *)
Theorem chart_marks_what_filter_skips
  (v : Variant) (sym : string) (pre : list Candle) (second last : Candle) (ma : float) :
  let ohlcv := pre ++ [second; last] in
  let df := with_indicators ohlcv in
  (List.length ohlcv < 30)%nat ->
  nth_error (map MA28 df) (List.length ohlcv - 1) = Some ma ->
  entry_signal second last ma = true ->
  Chart.entry_marker df = Ok (Some (Py.min (Low last) (Low second)))
  /\ evaluate v sym df = Ok None
  /\ (28 <= List.length ohlcv)%nat.
Proof.
  intros ohlcv df L Hma S.
  destruct (with_indicators_last_two pre second last) as (rows & ma2 & ma1 & E & Hma1).
  fold ohlcv in E, Hma1. fold df in E, Hma1.
  assert (ma1 = ma) by congruence. subst ma1.
  split; [|split].
  - rewrite E, entry_marker_eq. unfold rows_signal. cbn [is_green MA28 candle].
    unfold entry_signal in S. rewrite S. reflexivity.
  - apply evaluate_short. unfold df. rewrite with_indicators_length. exact L.
  - destruct (Nat.lt_ge_cases (List.length ohlcv) 28) as [C|C]; [exfalso|exact C].
    assert (I : nth_error ohlcv (List.length ohlcv - 1) = Some last).
    { unfold ohlcv. rewrite length_app. cbn [List.length].
      rewrite nth_error_app2 by lia.
      replace (List.length pre + 2 - 1 - List.length pre)%nat with 1%nat by lia.
      reflexivity. }
    pose proof (with_indicators_nth ohlcv _ last I) as R. fold df in R.
    rewrite nth_error_map, R in Hma. cbn [option_map MA28] in Hma.
    replace (List.length ohlcv - 1 <? 27)%nat with true in Hma
      by (symmetry; apply Nat.ltb_lt; lia).
    inversion Hma; subst ma.
    unfold entry_signal in S. rewrite (ltb_nan_l nan (Close last) eq_refl) in S.
    rewrite andb_false_r in S. discriminate.
Qed.

(** X2 on the last 28 days of the sample series. *)
Lemma chart_marks_what_filter_skips_witness :
  Chart.entry_marker (with_indicators MoreSamples.series_28) = Ok (Some 98%float)
  /\ evaluate binance_script "AUSDT" (with_indicators MoreSamples.series_28) = Ok None.
Proof.
  destruct (chart_marks_what_filter_skips binance_script "AUSDT"
              (map (Sample.day 98) (seq 12 26)) (Sample.day 98 38) (Sample.day 98 39) 100)
    as (M & E & _).
  - vm_compute. lia.
  - vm_compute. reflexivity.
  - vm_compute. reflexivity.
  - split; [exact M | exact E].
Defined.

Section IndicatorFacts.

Lemma trailing28_app (i : nat) (xs ys : list float) :
  (i < List.length xs)%nat -> (27 <= i)%nat ->
  trailing28 i (xs ++ ys) = trailing28 i xs.
Proof.
  intros L S. unfold trailing28. rewrite skipn_app.
  replace (i - 27 - List.length xs)%nat with 0%nat by lia. cbn [skipn].
  rewrite firstn_app, length_skipn.
  replace (28 - (List.length xs - (i - 27)))%nat with 0%nat by lia.
  cbn [firstn]. rewrite app_nil_r. reflexivity.
Qed.

Lemma with_indicators_candles (ohlcv : list Candle) :
  map candle (with_indicators ohlcv) = ohlcv.
Proof.
  apply nth_error_ext. intros i. rewrite nth_error_map.
  destruct (nth_error ohlcv i) as [c|] eqn:E.
  - rewrite (with_indicators_nth ohlcv i c E). reflexivity.
  - apply nth_error_None in E.
    replace (nth_error (with_indicators ohlcv) i) with (@None Row); [reflexivity|].
    symmetry. apply nth_error_None. rewrite with_indicators_length. exact E.
Qed.

End IndicatorFacts.

(** X3. The derived columns look at the past only: the rows that
    [fetch_data] derives for a series are the first rows of what it derives
    for any longer series that starts with it, so a later candle never
    changes the colour or the moving average of an earlier one.  The frame
    also keeps the candles as fetched, in their order. *)
Theorem indicators_ignore_later_candles (ohlcv later : list Candle) :
  firstn (List.length ohlcv) (with_indicators (ohlcv ++ later)) = with_indicators ohlcv
  /\ map candle (with_indicators ohlcv) = ohlcv.
Proof.
  split; [|apply with_indicators_candles].
  apply nth_error_ext. intros i. rewrite nth_error_firstn.
  destruct (i <? List.length ohlcv)%nat eqn:B.
  - apply Nat.ltb_lt in B.
    destruct (nth_error ohlcv i) as [c|] eqn:E; [|apply nth_error_None in E; lia].
    assert (E' : nth_error (ohlcv ++ later) i = Some c)
      by (rewrite nth_error_app1 by exact B; exact E).
    rewrite (with_indicators_nth _ i c E'), (with_indicators_nth _ i c E).
    destruct (i <? 27)%nat eqn:S; [reflexivity|].
    apply Nat.ltb_ge in S. rewrite map_app, trailing28_app; [reflexivity| |exact S].
    rewrite length_map. exact B.
  - apply Nat.ltb_ge in B. symmetry. apply nth_error_None.
    rewrite with_indicators_length. exact B.
Qed.

Section FilterFacts.

Lemma evaluate_some_iff (v : Variant) (sym : string) (df : DataFrame) (m : SignalMatch) :
  evaluate v sym df = Ok (Some m) <->
  exists pre second last,
    df = pre ++ [second; last]
    /\ (30 <= List.length df)%nat
    /\ Pd.isna (MA28 last) = false
    /\ rows_signal second last = true
    /\ m = match_of_rows sym second last.
Proof.
  split.
  - intros H. destruct (Nat.lt_ge_cases (List.length df) 30) as [S|S].
    + rewrite evaluate_short in H by exact S. discriminate.
    + destruct (two_last df ltac:(lia)) as (pre & a & b & ->).
      rewrite evaluate_long in H by exact S.
      destruct (Pd.isna (MA28 b)) eqn:N; [discriminate|].
      destruct (rows_signal a b) eqn:R; [|discriminate].
      inversion H. exists pre, a, b. repeat split; auto.
  - intros (pre & a & b & -> & L & N & R & ->).
    rewrite evaluate_long by exact L. rewrite N, R. reflexivity.
Qed.

Lemma found_matches_length (v : Variant) (items : Py.dict DataFrame) :
  (List.length (found_matches v items) <= List.length items)%nat.
Proof.
  induction items as [|[sym df] rest IH]; [cbn; lia|].
  unfold found_matches in *. cbn [flat_map fst snd]. rewrite length_app.
  destruct (evaluate v sym df) as [[m|]|]; cbn [List.length]; lia.
Qed.

Lemma found_matches_symbols (v : Variant) (items : Py.dict DataFrame) :
  NoDup (Py.keys items) ->
  NoDup (map symbol (found_matches v items))
  /\ incl (map symbol (found_matches v items)) (Py.keys items).
Proof.
  induction items as [|[sym df] rest IH]; intros N.
  - split; [constructor | intros x []].
  - unfold Py.keys in N. cbn [map fst] in N. inversion N as [|k ks Nk Nr]; subst.
    destruct (IH Nr) as (D & I).
    unfold found_matches in *. cbn [flat_map fst snd].
    destruct (evaluate v sym df) as [[m|]|] eqn:E; cbn [app map].
    + apply evaluate_symbol in E. rewrite E. split.
      * constructor; [|exact D]. intros C. apply Nk. apply I. exact C.
      * intros x [<- | Hx]; [left; reflexivity | right; apply I; exact Hx].
    + split; [exact D | intros x Hx; right; apply I; exact Hx].
    + split; [exact D | intros x Hx; right; apply I; exact Hx].
Qed.

End FilterFacts.

(** X4. What [filter_pairs_with_signals] returns, for any [self.data]: it
    never raises, and a match is in the returned list exactly when some
    entry of [self.data] has 30 rows or more, a moving average that is a
    number in its last row and the signal in its last two rows, the match
    being the one built from these two rows under the entry's symbol.  The
    list is no longer than [self.data]. *)
Theorem filter_returns_exactly_the_signals (v : Variant) (self : Strategy) :
  exists ranked,
    signal_steps v self = (Ok ranked, set_matching_pairs self ranked)
    /\ (List.length ranked <= List.length (data self))%nat
    /\ forall m,
         In m ranked <->
         exists sym pre second last,
           In (sym, pre ++ [second; last]) (data self)
           /\ (30 <= List.length (pre ++ [second; last]))%nat
           /\ Pd.isna (MA28 last) = false
           /\ rows_signal second last = true
           /\ m = match_of_rows sym second last.
Proof.
  exists (Py.sorted volume true (found_matches v (data self))).
  split; [apply signal_steps_eq|]. split.
  - rewrite (Permutation_length (sorted_perm volume true _)).
    apply found_matches_length.
  - intros m. split.
    + intros H. apply (Permutation_in _ (sorted_perm volume true _)) in H.
      apply in_found_matches in H. destruct H as (sym & df & I & E).
      apply evaluate_some_iff in E.
      destruct E as (pre & a & b & -> & L & N & R & ->).
      exists sym, pre, a, b. repeat split; auto.
    + intros (sym & pre & a & b & I & L & N & R & ->).
      apply (Permutation_in _ (Permutation_sym (sorted_perm volume true _))).
      apply in_found_matches. exists sym, (pre ++ [a; b]). split; [exact I|].
      apply evaluate_some_iff. exists pre, a, b. repeat split; auto.
Qed.

Section DictionaryKeys.

Context {V : Type}.

Lemma get_none_iff (d : Py.dict V) (k : string) :
  Py.get d k = None <-> ~ In k (Py.keys d).
Proof.
  induction d as [|[k' x] d IH]; cbn [Py.get Py.keys map fst In].
  - split; [intros _ [] | reflexivity].
  - destruct (String.eqb k' k) eqn:E.
    + apply String.eqb_eq in E. split; [discriminate | intros H; destruct H; left; exact E].
    + apply String.eqb_neq in E. rewrite IH. unfold Py.keys. tauto.
Qed.

Lemma keys_setitem_old (d : Py.dict V) (k : string) (x : V) :
  In k (Py.keys d) -> Py.keys (Py.setitem d k x) = Py.keys d.
Proof.
  induction d as [|[k' x'] d IH]; intros H; [destruct H|].
  cbn [Py.setitem]. destruct (String.eqb k' k) eqn:E; [reflexivity|].
  apply String.eqb_neq in E. destruct H as [H|H]; [cbn in H; congruence|].
  unfold Py.keys in *. cbn [map fst]. rewrite IH by exact H. reflexivity.
Qed.

Lemma keys_setitem_new (d : Py.dict V) (k : string) (x : V) :
  ~ In k (Py.keys d) -> Py.keys (Py.setitem d k x) = Py.keys d ++ [k].
Proof.
  induction d as [|[k' x'] d IH]; intros H; [reflexivity|].
  cbn [Py.setitem]. destruct (String.eqb k' k) eqn:E.
  - apply String.eqb_eq in E. exfalso. apply H. left. exact E.
  - unfold Py.keys in *. cbn [map fst app]. rewrite IH; [reflexivity|].
    intros C. apply H. right. exact C.
Qed.

Lemma keys_setitem_nodup (d : Py.dict V) (k : string) (x : V) :
  NoDup (Py.keys d) -> NoDup (Py.keys (Py.setitem d k x)).
Proof.
  intros N. destruct (in_dec string_dec k (Py.keys d)) as [I|I].
  - rewrite keys_setitem_old by exact I. exact N.
  - rewrite keys_setitem_new by exact I. apply NoDup_app. repeat split.
    + exact N.
    + constructor; [intros []|constructor].
    + intros a Ha [<-|[]]. contradiction.
Qed.

Lemma keys_setitem_incl (d : Py.dict V) (k : string) (x : V) :
  incl (Py.keys (Py.setitem d k x)) (k :: Py.keys d).
Proof.
  destruct (in_dec string_dec k (Py.keys d)) as [I|I].
  - rewrite keys_setitem_old by exact I. apply incl_tl, incl_refl.
  - rewrite keys_setitem_new by exact I. intros a Ha. apply in_app_or in Ha.
    destruct Ha as [Ha|[<-|[]]]; [right; exact Ha | left; reflexivity].
Qed.

Lemma in_get_some (d : Py.dict V) (k : string) (x : V) :
  NoDup (Py.keys d) -> In (k, x) d -> Py.get d k = Some x.
Proof.
  induction d as [|[k' x'] d IH]; intros N H; [destruct H|].
  unfold Py.keys in N. cbn [map fst] in N. inversion N as [|a l Na Nl]; subst.
  cbn [Py.get]. destruct H as [H|H].
  - inversion H; subst. rewrite String.eqb_refl. reflexivity.
  - destruct (String.eqb k' k) eqn:E.
    + apply String.eqb_eq in E. subst k'. exfalso. apply Na.
      apply (in_map fst) in H. exact H.
    + apply IH; assumption.
Qed.

End DictionaryKeys.

Section StoredKeys.

Variable rows_of : string -> res (list Candle).

Lemma stored_nodup (d : Py.dict DataFrame) (s : string) :
  NoDup (Py.keys d) -> NoDup (Py.keys (stored rows_of d s)).
Proof.
  intros N. unfold stored. destruct (rows_of s) as [[|c rows]|e]; try exact N.
  apply keys_setitem_nodup. exact N.
Qed.

Lemma stored_incl (d : Py.dict DataFrame) (s : string) :
  incl (Py.keys (stored rows_of d s)) (s :: Py.keys d).
Proof.
  unfold stored. destruct (rows_of s) as [[|c rows]|e];
    try (apply incl_tl, incl_refl).
  apply keys_setitem_incl.
Qed.

Lemma fold_stored_nodup (symbols : list string) (d : Py.dict DataFrame) :
  NoDup (Py.keys d) -> NoDup (Py.keys (fold_left (stored rows_of) symbols d)).
Proof.
  revert d. induction symbols as [|s rest IH]; intros d N; [exact N|].
  cbn [fold_left]. apply IH, stored_nodup, N.
Qed.

Lemma fold_stored_incl (symbols : list string) (d : Py.dict DataFrame) :
  incl (Py.keys (fold_left (stored rows_of) symbols d)) (Py.keys d ++ symbols).
Proof.
  revert d. induction symbols as [|s rest IH]; intros d.
  - cbn [fold_left]. rewrite app_nil_r. apply incl_refl.
  - cbn [fold_left]. intros a Ha. apply IH in Ha. apply in_app_or in Ha.
    apply in_or_app. destruct Ha as [Ha|Ha].
    + apply stored_incl in Ha. destruct Ha as [<-|Ha];
        [right; left; reflexivity | left; exact Ha].
    + right. right. exact Ha.
Qed.

Lemma get_not_selected (symbols : list string) (d : Py.dict DataFrame) (s : string) :
  ~ In s symbols -> Py.get (fold_left (stored rows_of) symbols d) s = Py.get d s.
Proof.
  revert d. induction symbols as [|x rest IH]; intros d N; [reflexivity|].
  cbn [fold_left]. rewrite IH by (intros C; apply N; right; exact C).
  apply get_stored_other. intros ->. apply N. left. reflexivity.
Qed.

(** The entry of a symbol after the loop. *)
Lemma get_fold_stored (symbols : list string) (d : Py.dict DataFrame) (s : string) :
  Py.get (fold_left (stored rows_of) symbols d) s =
    match rows_of s with
    | Ok (c :: rows) =>
        if in_dec string_dec s symbols then Some (with_indicators (c :: rows))
        else Py.get d s
    | _ => Py.get d s
    end.
Proof.
  destruct (rows_of s) as [[|c rows]|e] eqn:R.
  - apply get_not_fetched. intros c rows E. congruence.
  - destruct (in_dec string_dec s symbols) as [I|I].
    + apply get_fetched; assumption.
    + apply get_not_selected. exact I.
  - apply get_not_fetched. intros c rows E. congruence.
Qed.

End StoredKeys.

(** X5. [fetch_data] on a new object: the number it returns is the number
    of entries of [self.data], which is at most the number of symbols it
    went through; no symbol has two entries; and [self.data] holds exactly
    the symbols among them whose request returned at least one candle, each
    with the frame derived from the candles returned. *)
Theorem fetch_data_fills_new_object
  (v : Variant) (ex : Exchange v) (limit_pairs : option Z) (quote : string) :
  let symbols := selected limit_pairs (fst (fetch_all_pairs v ex (init quote))) in
  let run := fetch_data v ex limit_pairs (init quote) in
  let self' := snd (fst run) in
  fst (fst run) = List.length (data self')
  /\ (fst (fst run) <= List.length symbols)%nat
  /\ NoDup (Py.keys (data self'))
  /\ forall s df,
       In (s, df) (data self') <->
       In s symbols
       /\ exists c rows, candles v ex s = Ok (c :: rows)
                         /\ df = with_indicators (c :: rows).
Proof.
  intros symbols run self'. subst run self'. rewrite fetch_data_eq.
  cbn [fst snd data set_data init]. fold symbols.
  set (d := fold_left (stored (candles v ex)) symbols []).
  assert (N : NoDup (Py.keys d)) by (apply fold_stored_nodup; constructor).
  assert (I : incl (Py.keys d) symbols)
    by (intros a Ha; apply (fold_stored_incl (candles v ex) symbols []) in Ha; exact Ha).
  split; [reflexivity|]. split; [|split; [exact N|]].
  - replace (List.length d) with (List.length (Py.keys d))
      by (unfold Py.keys; apply length_map).
    apply NoDup_incl_length; assumption.
  - intros s df. split.
    + intros H. pose proof (in_get_some d s df N H) as G.
      unfold d in G. rewrite get_fold_stored in G.
      assert (Hs : In s symbols) by (apply I; apply (in_map fst) in H; exact H).
      split; [exact Hs|].
      destruct (candles v ex s) as [[|c rows]|e]; try discriminate.
      destruct (in_dec string_dec s symbols); [|discriminate].
      inversion G. eauto.
    + intros (Hs & c & rows & R & ->). apply get_some_in.
      unfold d. rewrite get_fold_stored, R.
      destruct (in_dec string_dec s symbols); [reflexivity|contradiction].
Qed.

(** X6. [fetch_data] never removes an entry of [self.data] and never touches
    [quote_currency] or [matching_pairs]: a symbol that had a frame still has
    one afterwards, and it is the old frame unless the symbol was gone
    through and its request returned candles.  A symbol that can no longer
    be fetched so keeps the frame of an earlier call. *)
Theorem fetch_data_keeps_old_frames
  (v : Variant) (ex : Exchange v) (limit_pairs : option Z) (self : Strategy)
  (s : string) (df : DataFrame) :
  let symbols := selected limit_pairs (fst (fetch_all_pairs v ex self)) in
  let self' := snd (fst (fetch_data v ex limit_pairs self)) in
  Py.get (data self) s = Some df ->
  (exists df', Py.get (data self') s = Some df')
  /\ (~ In s symbols \/ (forall c rows, candles v ex s <> Ok (c :: rows)) ->
      Py.get (data self') s = Some df)
  /\ quote_currency self' = quote_currency self
  /\ matching_pairs self' = matching_pairs self.
Proof.
  intros symbols self' G. subst self'. rewrite fetch_data_eq.
  cbn [fst snd data set_data quote_currency matching_pairs]. fold symbols.
  rewrite get_fold_stored. split; [|split; [|split; reflexivity]].
  - destruct (candles v ex s) as [[|c rows]|e]; eauto.
    destruct (in_dec string_dec s symbols); eauto.
  - intros [H|H].
    + destruct (candles v ex s) as [[|c rows]|e]; try exact G.
      destruct (in_dec string_dec s symbols); [contradiction | exact G].
    + destruct (candles v ex s) as [[|c rows]|e]; try exact G.
      destruct (H c rows eq_refl).
Qed.

(** X6 on the object of a first round, fetched again while no candle
    request succeeds. *)
Lemma fetch_data_keeps_old_frames_witness :
  Py.get (data (two_rounds SampleExchange.api_partial MoreSamples.api_candles_down))
         "AUSDT"
  = Some (with_indicators Sample.series_A).
Proof.
  destruct (fetch_data_keeps_old_frames binance_script MoreSamples.api_candles_down None
              (snd (fst (Binance.fetch_data SampleExchange.api_partial None (init "USDT"))))
              "AUSDT" (with_indicators Sample.series_A))
    as (_ & H & _).
  - vm_compute. reflexivity.
  - apply H. right. intros c rows E. discriminate.
Defined.

(** X7. A negative [limit_pairs] is true, so the slice applies:
    [fetch_data] then leaves out the last [-limit_pairs] listed symbols and
    goes through the others in the listed order (through none when the
    listing is that short). *)
Theorem negative_limit_drops_last_symbols
  (v : Variant) (ex : Exchange v) (self : Strategy) (n : Z) :
  let listed := fst (fetch_all_pairs v ex self) in
  n < 0 ->
  attempted (snd (fetch_data v ex (Some n) self))
  = firstn (List.length listed - Z.to_nat (- n)) listed.
Proof.
  intros listed Hn. rewrite attempted_fetch_data.
  unfold selected, Py.truthy, Py.slice_to. fold listed.
  replace (n =? 0) with false by (symmetry; apply Z.eqb_neq; lia).
  replace (n <? 0) with true by (symmetry; apply Z.ltb_lt; lia).
  cbn [negb]. f_equal. lia.
Qed.

(** X7 on the exchange with three pairs in the quote currency. *)
Lemma negative_limit_drops_last_symbols_witness :
  attempted (snd (fetch_data binance_script SampleExchange.api_partial (Some (-1))
                    (init "USDT")))
  = ["AUSDT"; "BUSDT"].
Proof.
  apply (negative_limit_drops_last_symbols binance_script SampleExchange.api_partial
           (init "USDT") (-1)).
  lia.
Defined.

(** X8. A scan from a new object returns normally, with at most one match
    per symbol, every match under a symbol that [fetch_all_pairs] listed,
    and no more matches than listed symbols. *)
Theorem scan_reports_each_symbol_once (v : Variant) (ex : Exchange v) (quote : string) :
  let listed := fst (fetch_all_pairs v ex (init quote)) in
  exists ranked,
    fst (fst (main v ex quote)) = Ok ranked
    /\ matching_pairs (snd (fst (main v ex quote))) = ranked
    /\ NoDup (map symbol ranked)
    /\ incl (map symbol ranked) listed
    /\ (List.length ranked <= List.length listed)%nat.
Proof.
  intros listed. rewrite main_eq.
  destruct (fetch_data_fills_new_object v ex None quote) as (_ & Hn & N & H).
  cbn [selected Py.truthy] in Hn, H. fold listed in Hn, H.
  set (self' := snd (fst (fetch_data v ex None (init quote)))) in *.
  rewrite signal_steps_eq. cbn [fst snd matching_pairs set_matching_pairs].
  set (found := found_matches v (data self')).
  destruct (found_matches_symbols v (data self') N) as (D & I). fold found in D, I.
  pose proof (sorted_perm volume true found) as P.
  exists (Py.sorted volume true found). split; [reflexivity|]. split; [reflexivity|].
  assert (K : incl (Py.keys (data self')) listed).
  { intros k Hk. unfold Py.keys in Hk. apply in_map_iff in Hk.
    destruct Hk as ([s df] & <- & Hi). apply H in Hi. apply Hi. }
  split; [|split].
  - apply (Permutation_NoDup (Permutation_sym (Permutation_map symbol P))). exact D.
  - intros s Hs. apply K, I.
    apply (Permutation_in _ (Permutation_map symbol P)). exact Hs.
  - rewrite (Permutation_length P).
    pose proof (found_matches_length v (data self')) as Lf. fold found in Lf.
    rewrite fetch_data_eq in Hn. cbn [fst snd] in Hn.
    unfold self' in Lf. rewrite fetch_data_eq in Lf. cbn [fst snd data set_data] in Lf.
    lia.
Qed.

Section Prefix.

Lemma strongly_sorted_split {A : Type} (R : A -> A -> Prop) (l : list A) (n : nat) (a b : A) :
  StronglySorted R l -> In a (firstn n l) -> In b (skipn n l) -> R a b.
Proof.
  intros S. revert n. induction S as [|h t S IH F]; intros n Ha Hb.
  - rewrite firstn_nil in Ha. destruct Ha.
  - destruct n as [|n]; [destruct Ha|].
    cbn [firstn skipn] in Ha, Hb. destruct Ha as [<-|Ha].
    + rewrite Forall_forall in F. apply F.
      rewrite <- (firstn_skipn n t). apply in_or_app. right. exact Hb.
    + apply (IH n); assumption.
Qed.

End Prefix.

(** X9. When the volumes of the matches are numbers, any first part of the
    returned list holds the matches of largest volume: a match among the
    first [n] has a volume at least that of every match after them.  (The
    bot shows the first ten.) *)
Theorem first_matches_have_largest_volume
  (v : Variant) (self : Strategy) (n : nat) (ranked : list SignalMatch) (a b : SignalMatch) :
  numeric volume (found_matches v (data self)) ->
  fst (signal_steps v self) = Ok ranked ->
  In a (firstn n ranked) -> In b (skipn n ranked) ->
  (volume b <=? volume a)%float = true.
Proof.
  intros N E Ha Hb. rewrite signal_steps_eq in E. cbn [fst] in E.
  inversion E; subst ranked; clear E.
  destruct (sorted_reverse_spec volume _ N) as (_ & S & _).
  exact (strongly_sorted_split (nonincreasing volume) _ n a b S Ha Hb).
Qed.

(** X9 on the sample object: the first match against the two others. *)
Lemma first_matches_have_largest_volume_witness :
  (500000 <=? 700000)%float = true.
Proof.
  apply (first_matches_have_largest_volume ccxt_script Sample.strategy 1
           (Py.sorted volume true (found_matches ccxt_script (data Sample.strategy)))
           (expected_match "BUSDT" (Sample.day 98 38) (Sample.day_with 98 700000 39) 100)
           (expected_match "CUSDT" (Sample.day 98 38) (Sample.day 98 39) 100)).
  - vm_compute. repeat constructor.
  - vm_compute. reflexivity.
  - vm_compute. left. reflexivity.
  - vm_compute. right. left. reflexivity.
Defined.

Section ScheduledScan.

Lemma scheduled_scan_eq (first again : Binance.Api) :
  let ranked :=
    Py.sorted volume true (found_matches binance_script (data (two_rounds first again))) in
  Bot.scheduled_scan first again =
    [ Bot.RunningScheduledScan; Bot.FetchingMarketData;
      match ranked with
      | [] => Bot.NoMatchingPairs
      | _ :: _ => Bot.Found (List.length ranked) (firstn 10 ranked)
      end ].
Proof.
  intros ranked. subst ranked. unfold Bot.scheduled_scan, two_rounds.
  destruct (Binance.fetch_data first None (init "USDT")) as [[n1 fetched] out1].
  unfold Binance.filter_pairs_with_signals. cbn [fst snd].
  destruct (Binance.fetch_data again None fetched) as [[n2 self2] out2]. cbn [fst snd].
  pose proof (signal_steps_eq binance_script self2) as E. cbn [signal_steps] in E.
  rewrite E. cbn [app].
  destruct (Py.sorted volume true (found_matches binance_script (data self2)));
    reflexivity.
Qed.

End ScheduledScan.

(** X10. A scheduled scan always sends three texts and never the error
    text: the two progress texts, then either "no matching pairs", when the
    filter returns the empty list, or the number of matches together with
    the first ten of the returned list. *)
Theorem scheduled_scan_sends_three_texts (first again : Binance.Api) :
  exists ranked,
    fst (signal_steps binance_script (two_rounds first again)) = Ok ranked
    /\ Bot.scheduled_scan first again =
         [ Bot.RunningScheduledScan; Bot.FetchingMarketData;
           match ranked with
           | [] => Bot.NoMatchingPairs
           | _ :: _ => Bot.Found (List.length ranked) (firstn 10 ranked)
           end ]
    /\ (forall e, ~ In (Bot.ErrorDuringScan e) (Bot.scheduled_scan first again))
    /\ (List.length (firstn 10 ranked) <= 10)%nat.
Proof.
  eexists. split; [rewrite signal_steps_eq; reflexivity|].
  split; [apply scheduled_scan_eq|]. split.
  - intros e. rewrite scheduled_scan_eq.
    destruct (Py.sorted volume true _); cbn [In];
      intros [H|[H|[H|[]]]]; discriminate.
  - rewrite length_firstn. lia.
Qed.

(** X11. The scheduled scan fetches twice into the same object, so a pair
    whose candles came back in the first round and cannot be fetched in
    the second is still evaluated on the frame of the first round: if that
    frame shows the signal, its match is in the list the filter returns and
    the bot reports matches. *)
Theorem scheduled_scan_reports_stale_frame
  (first again : Binance.Api) (s : string) (c : Candle) (rows : list Candle)
  (m : SignalMatch) :
  In s (fst (Binance.fetch_all_pairs first (init "USDT"))) ->
  Binance.klines first s = Ok (c :: rows) ->
  (forall c' rows', Binance.klines again s <> Ok (c' :: rows')) ->
  evaluate binance_script s (with_indicators (c :: rows)) = Ok (Some m) ->
  Py.get (data (two_rounds first again)) s = Some (with_indicators (c :: rows))
  /\ exists ranked,
       fst (signal_steps binance_script (two_rounds first again)) = Ok ranked
       /\ In m ranked
       /\ Bot.scheduled_scan first again =
            [ Bot.RunningScheduledScan; Bot.FetchingMarketData;
              Bot.Found (List.length ranked) (firstn 10 ranked) ].
Proof.
  intros L R1 R2 E.
  destruct (fetch_data_fills_new_object binance_script first None "USDT")
    as (_ & _ & N & H).
  cbn [selected Py.truthy fetch_data fetch_all_pairs candles] in N, H.
  assert (G1 : Py.get (data (snd (fst (Binance.fetch_data first None (init "USDT"))))) s
               = Some (with_indicators (c :: rows))).
  { apply in_get_some; [exact N|]. apply H. split; [exact L|]. eauto. }
  destruct (fetch_data_keeps_old_frames binance_script again None _ s _ G1)
    as (_ & K & _).
  cbn [fetch_data candles] in K.
  assert (G2 : Py.get (data (two_rounds first again)) s
               = Some (with_indicators (c :: rows))).
  { unfold two_rounds. apply K. right. exact R2. }
  split; [exact G2|].
  exists (Py.sorted volume true (found_matches binance_script (data (two_rounds first again)))).
  assert (I : In m (Py.sorted volume true
                      (found_matches binance_script (data (two_rounds first again))))).
  { apply (Permutation_in _ (Permutation_sym (sorted_perm volume true _))).
    apply in_found_matches. exists s, (with_indicators (c :: rows)).
    split; [apply get_some_in; exact G2 | exact E]. }
  split; [rewrite signal_steps_eq; reflexivity|]. split; [exact I|].
  rewrite scheduled_scan_eq.
  destruct (Py.sorted volume true _); [destruct I | reflexivity].
Qed.

(** X11 on the sample exchange, with every candle request failing in the
    second round. *)
Lemma scheduled_scan_reports_stale_frame_witness :
  Py.get (data (two_rounds SampleExchange.api_partial MoreSamples.api_candles_down))
         "CUSDT"
  = Some (with_indicators Sample.series_A).
Proof.
  apply (scheduled_scan_reports_stale_frame SampleExchange.api_partial
           MoreSamples.api_candles_down "CUSDT"
           (Sample.day 98 0) (map (Sample.day 98) (seq 1 39))
           (expected_match "CUSDT" (Sample.day 98 38) (Sample.day 98 39) 100)).
  - vm_compute. right. right. left. reflexivity.
  - vm_compute. reflexivity.
  - intros c' rows' E. discriminate.
  - vm_compute. reflexivity.
Defined.

Section ListingKeys.

Lemma select_symbols_missing_quote (quote : string) (items : list Binance.SymbolItem)
  (item : Binance.SymbolItem) :
  In item items -> Binance.item_quoteAsset item = None ->
  exists k, Binance.select_symbols quote items = Raise (KeyError k).
Proof.
  induction items as [|x rest IH]; intros I Q; [destruct I|].
  cbn [Binance.select_symbols].
  destruct (Binance.item_quoteAsset x) as [qa|] eqn:Ex; cbn [Binance.lookup bind].
  - assert (Ir : exists k, Binance.select_symbols quote rest = Raise (KeyError k)).
    { destruct I as [-> | I]; [congruence | apply IH; assumption]. }
    destruct Ir as [k Ek].
    destruct (String.eqb qa quote); cbn [bind].
    + destruct (Binance.item_status x) as [st|]; cbn [Binance.lookup bind]; [|eauto].
      destruct (String.eqb st "TRADING"); [|eauto].
      destruct (Binance.item_symbol x) as [sx|]; cbn [Binance.lookup bind]; [|eauto].
      rewrite Ek. cbn [bind]. eauto.
    + eauto.
  - eauto.
Qed.

Lemma select_symbols_skips (quote qa : string) (pre post : list Binance.SymbolItem)
  (item : Binance.SymbolItem) :
  Binance.item_quoteAsset item = Some qa -> qa <> quote ->
  Binance.select_symbols quote (pre ++ item :: post)
  = Binance.select_symbols quote (pre ++ post).
Proof.
  intros Q D. induction pre as [|x pre IH]; cbn [app Binance.select_symbols].
  - rewrite Q. cbn [Binance.lookup bind].
    replace (String.eqb qa quote) with false by (symmetry; apply String.eqb_neq; exact D).
    reflexivity.
  - rewrite IH. reflexivity.
Qed.

End ListingKeys.

(** X12. On a payload whose objects all have their three keys, the Binance
    variant of [fetch_all_pairs] returns the symbols of the objects whose
    quote asset is the quote currency and whose status is [TRADING], in the
    order of the payload, and prints their number. *)
Theorem binance_listing_is_the_tradable_pairs
  (api : Binance.Api) (self : Strategy) (entries : list (string * string * string)) :
  Binance.exchangeInfo api = Ok (payload entries) ->
  let listed := map (fun t => fst (fst t)) (filter (tradable_in (quote_currency self)) entries) in
  Binance.fetch_all_pairs api self
    = (listed, [FoundPairs (List.length listed) (quote_currency self)])
  /\ forall s, In s listed <->
               exists st, In (s, quote_currency self, st) entries /\ st = "TRADING".
Proof.
  intros H listed. split.
  - unfold Binance.fetch_all_pairs, Binance.try_listing. rewrite H.
    unfold payload. cbn [bind Binance.lookup Binance.info_symbols].
    rewrite select_symbols_exact. reflexivity.
  - intros s. unfold listed. rewrite in_map_iff. split.
    + intros ([[s' q] st] & <- & I). apply filter_In in I. destruct I as (I & T).
      unfold tradable_in in T. cbn [fst snd] in T. apply andb_true_iff in T.
      destruct T as (Tq & Ts). apply String.eqb_eq in Tq, Ts. subst.
      exists "TRADING". split; [exact I | reflexivity].
    + intros (st & I & ->). exists (s, quote_currency self, "TRADING").
      split; [reflexivity|]. apply filter_In. split; [exact I|].
      unfold tradable_in. cbn [fst snd]. rewrite !String.eqb_refl. reflexivity.
Qed.

(** X12 on the sample payload. *)
Lemma binance_listing_is_the_tradable_pairs_witness :
  Binance.fetch_all_pairs SampleExchange.api_partial (init "USDT")
  = (["AUSDT"; "BUSDT"; "CUSDT"], [FoundPairs 3 "USDT"]).
Proof.
  apply (binance_listing_is_the_tradable_pairs SampleExchange.api_partial (init "USDT")
           [ ("AUSDT", "USDT", "TRADING"); ("BUSDT", "USDT", "TRADING");
             ("CUSDT", "USDT", "TRADING"); ("ABTC", "BTC", "TRADING");
             ("HUSDT", "USDT", "BREAK") ]).
  reflexivity.
Defined.

(** X13. One object without its [quoteAsset] key, anywhere in the payload,
    or a payload without its [symbols] key, makes the Binance variant of
    [fetch_all_pairs] return no symbol at all and print the [KeyError]: the
    symbols of the well-formed objects are lost with it. *)
Theorem binance_listing_lost_on_missing_key
  (api : Binance.Api) (self : Strategy) (info : Binance.ExchangeInfo) :
  Binance.exchangeInfo api = Ok info ->
  Binance.info_symbols info = None
  \/ (exists items item, Binance.info_symbols info = Some items
                         /\ In item items /\ Binance.item_quoteAsset item = None) ->
  exists k, Binance.fetch_all_pairs api self = ([], [ErrorFetchingMarketPairs (KeyError k)]).
Proof.
  intros H C. unfold Binance.fetch_all_pairs, Binance.try_listing. rewrite H.
  cbn [bind]. destruct C as [N | (items & item & S & I & Q)].
  - rewrite N. cbn [Binance.lookup bind]. eauto.
  - rewrite S. cbn [Binance.lookup bind].
    destruct (select_symbols_missing_quote (quote_currency self) items item I Q) as [k ->].
    eauto.
Qed.

(** X13 on a payload whose second object lacks [quoteAsset]. *)
Lemma binance_listing_lost_on_missing_key_witness :
  exists k, Binance.fetch_all_pairs (MoreSamples.api_of MoreSamples.items_broken)
              (init "USDT")
            = ([], [ErrorFetchingMarketPairs (KeyError k)]).
Proof.
  apply (binance_listing_lost_on_missing_key (MoreSamples.api_of MoreSamples.items_broken)
           (init "USDT") {| Binance.info_symbols := Some MoreSamples.items_broken |}).
  - reflexivity.
  - right. eexists _, _. split; [reflexivity|]. split; [right; left; reflexivity|].
    reflexivity.
Defined.

(** X14. The keys [status] and [symbol] of an object of another quote asset
    are never read: the listing is what it is without that object, which
    may lack them. *)
Theorem binance_listing_skips_other_quotes
  (api api' : Binance.Api) (self : Strategy) (pre post : list Binance.SymbolItem)
  (item : Binance.SymbolItem) (qa : string) :
  Binance.exchangeInfo api = Ok {| Binance.info_symbols := Some (pre ++ item :: post) |} ->
  Binance.exchangeInfo api' = Ok {| Binance.info_symbols := Some (pre ++ post) |} ->
  Binance.item_quoteAsset item = Some qa ->
  qa <> quote_currency self ->
  Binance.fetch_all_pairs api self = Binance.fetch_all_pairs api' self.
Proof.
  intros H H' Q D. unfold Binance.fetch_all_pairs, Binance.try_listing.
  rewrite H, H'. cbn [bind Binance.lookup Binance.info_symbols].
  rewrite (select_symbols_skips _ qa pre post item Q D). reflexivity.
Qed.

(** X14 on a payload whose second object has [quoteAsset] only. *)
Lemma binance_listing_skips_other_quotes_witness :
  Binance.fetch_all_pairs (MoreSamples.api_of MoreSamples.items_lazy) (init "USDT")
  = Binance.fetch_all_pairs
      (MoreSamples.api_of [SampleExchange.item "AUSDT" "USDT" "TRADING"]) (init "USDT").
Proof.
  apply (binance_listing_skips_other_quotes
           (MoreSamples.api_of MoreSamples.items_lazy)
           (MoreSamples.api_of [SampleExchange.item "AUSDT" "USDT" "TRADING"])
           (init "USDT") [SampleExchange.item "AUSDT" "USDT" "TRADING"] []
           {| Binance.item_symbol := None; Binance.item_quoteAsset := Some "BTC";
              Binance.item_status := None |} "BTC").
  - reflexivity.
  - reflexivity.
  - reflexivity.
  - discriminate.
Defined.

(* ===================================================================== *)
(** ** The subscriber store *)
(* ===================================================================== *)

Section Rows.

Import Sqlite.








End Rows.

Section TopStore.

Import Sqlite.






Variable db : Db.
Variable rs : list (Z * Row).
Hypothesis table_here :
  Py.get db "subscribers" = Some (with_rows DatabaseTop.subscribers rs).







End TopStore.

Section TopReady.

Import Sqlite.








End TopReady.

Section TopCalls.

Import Sqlite.








End TopCalls.










Section InnerStore.

Import Sqlite.

Lemma inner_add_fails (db : Db) (t : Table) (c : Z) (u : option string) (now : string) :
  Py.get db "subscribers" = Some t ->
  primary_key t = primary_key DatabaseInner.subscribers ->
  columns t = columns DatabaseInner.subscribers ->
  DatabaseInner.add_subscriber db c u now
  = (false, db,
     [LogError "Error adding subscriber"
        (OperationalError "table subscribers has no column named subscribed_at")]).
Proof.
  intros G P C. unfold DatabaseInner.add_subscriber, insert_or_replace, table.
  rewrite G. unfold has_column. rewrite P, C. reflexivity.
Qed.

Lemma inner_init_tables (db0 : Db) :
  Py.get db0 "subscribers" = None ->
  Py.get (fst (DatabaseInner.init_db db0)) "subscribers" = Some DatabaseInner.subscribers
  /\ (Py.get db0 "user_settings" = None ->
      Py.get (fst (DatabaseInner.init_db db0)) "user_settings"
      = Some DatabaseInner.user_settings).
Proof.
  intros N. unfold DatabaseInner.init_db. cbn [fst].
  unfold create_table_if_not_exists. rewrite !N.
  rewrite (get_setitem_other db0 "subscribers" "user_settings") by discriminate.
  destruct (Py.get db0 "user_settings") eqn:E.
  - split; [apply get_setitem_same | discriminate].
  - split.
    + rewrite get_setitem_other by discriminate. apply get_setitem_same.
    + intros _. apply get_setitem_same.
Qed.

Lemma inner_call_keeps (db : Db) (call : Call) :
  Py.get db "subscribers" = Some DatabaseInner.subscribers ->
  Py.get (inner_call db call) "subscribers" = Some DatabaseInner.subscribers
  /\ Py.get (inner_call db call) "user_settings" = Py.get db "user_settings".
Proof.
  intros G. destruct call as [c u now | c | c now]; cbn [inner_call].
  - rewrite (inner_add_fails db _ c u now G eq_refl eq_refl). cbn [fst snd].
    split; [exact G | reflexivity].
  - unfold DatabaseInner.remove_subscriber, update_by_key, table. rewrite G.
    cbn [fst snd find negb has_column]. split.
    + apply get_setitem_same.
    + apply get_setitem_other. discriminate.
  - unfold DatabaseInner.update_last_notification, update_by_key, table. rewrite G.
    cbn [fst snd find negb has_column]. split.
    + apply get_setitem_same.
    + apply get_setitem_other. discriminate.
Qed.

Lemma inner_history (db : Db) (calls : list Call) :
  Py.get db "subscribers" = Some DatabaseInner.subscribers ->
  Py.get (fold_left inner_call calls db) "subscribers" = Some DatabaseInner.subscribers
  /\ Py.get (fold_left inner_call calls db) "user_settings" = Py.get db "user_settings".
Proof.
  revert db. induction calls as [|call calls IH]; intros db G; cbn [fold_left].
  - split; [exact G | reflexivity].
  - destruct (inner_call_keeps db call G) as (G' & U').
    destruct (IH _ G') as (G2 & U2). split; [exact G2 | congruence].
Qed.

End InnerStore.

Section Jobs.

Import Sqlite.

Variable run_daily : Value -> Value -> Value -> option BotCommands.Job.

Lemma active_rows_are_pairs (f : DatabaseFile) (db : Db) :
  Forall (fun row => List.length row = 2%nat)
         (fst (db_get_active_subscribers (database f) db)).
Proof.
  destruct f; cbn [database db_get_active_subscribers];
    unfold DatabaseTop.get_active_subscribers, DatabaseInner.get_active_subscribers, select;
    (destruct (table db "subscribers") as [t|e]; [|constructor]);
    (match goal with
     | |- context [find ?p ?l] => destruct (find p l)
     end; [constructor|]);
    cbn [fst]; apply Forall_forall; intros row H; apply in_map_iff in H;
    destruct H as (kr & <- & _); reflexivity.
Qed.

Lemma schedule_pairs (found : list (list Value)) (jobs : list BotCommands.Job) :
  Forall (fun row => List.length row = 2%nat) found ->
  BotCommands.schedule run_daily found jobs
  = match found with
    | [] => inr jobs
    | _ :: _ => inl (BotCommands.NotEnoughValuesToUnpack 6 2)
    end.
Proof.
  intros F. destruct found as [|row rest]; [reflexivity|].
  inversion F as [|? ? L _]; subst.
  destruct row as [|a [|b [|c ?]]]; try discriminate. reflexivity.
Qed.

End Jobs.

(** X20. The [Database] class of [src/src/database.py] on a file that had
    no [subscribers] table before it: the table it creates has no
    [subscribed_at] column, which [add_subscriber] writes, so after any
    sequence of calls every [add_subscriber] returns [False] and leaves the
    file as it is, no chat has a record, the active list is empty and the
    bot's [/subscribe] answers with the failure text; where the file had no
    [user_settings] table either, [get_user_setting] returns the default. *)
Theorem inner_database_never_takes_a_subscriber
  (db0 : Sqlite.Db) (calls : list Call) :
  Py.get db0 "subscribers" = None ->
  let db := fold_left inner_call calls (fst (DatabaseInner.init_db db0)) in
  (forall c u now,
      DatabaseInner.add_subscriber db c u now
      = (false, db,
         [LogError "Error adding subscriber"
            (Sqlite.OperationalError
               "table subscribers has no column named subscribed_at")])
      /\ BotCommands.subscribe (database inner_database) db c u now
         = (BotCommands.FailedToSubscribe, db))
  /\ (forall c, record db c = None)
  /\ DatabaseInner.get_active_subscribers db = ([], [])
  /\ (Py.get db0 "user_settings" = None ->
      forall c name default,
        DatabaseInner.get_user_setting db c name default = (default, [])).
Proof.
  intros N db. destruct (inner_init_tables db0 N) as (G0 & U0).
  destruct (inner_history _ calls G0) as (G & U). fold db in G, U.
  split; [|split; [|split]].
  - intros c u now.
    assert (A := inner_add_fails db _ c u now G eq_refl eq_refl).
    split; [exact A|].
    unfold BotCommands.subscribe. cbn [database db_add_subscriber].
    rewrite A. reflexivity.
  - intros c. unfold record. rewrite G. reflexivity.
  - unfold DatabaseInner.get_active_subscribers, Sqlite.select, Sqlite.table.
    rewrite G. reflexivity.
  - intros NU c name default.
    unfold DatabaseInner.get_user_setting, Sqlite.select, Sqlite.table.
    rewrite U, (U0 NU). reflexivity.
Qed.

(** X20 on a new file, after a [/start] and an [/unsubscribe]. *)
Lemma inner_database_never_takes_a_subscriber_witness :
  record (fold_left inner_call [AddSubscriber 7 (Some "ann") "t0"; RemoveSubscriber 7]
                    (fst (DatabaseInner.init_db []))) 7 = None.
Proof.
  apply (inner_database_never_takes_a_subscriber
           [] [AddSubscriber 7 (Some "ann") "t0"; RemoveSubscriber 7]).
  reflexivity.
Defined.

(** X21. [setup_jobs] of [crypto_telegram_bot.py], with the [Database] of
    either file: the rows of [get_active_subscribers] hold two values and
    the loop assigns each to six names outside its [try], so the method
    returns without a job when no subscriber is active and raises
    [ValueError] (expected 6, got 2) otherwise; it never schedules a
    job. *)
Theorem setup_jobs_never_schedules
  (run_daily : Sqlite.Value -> Sqlite.Value -> Sqlite.Value -> option BotCommands.Job)
  (f : DatabaseFile) (db : Sqlite.Db) :
  BotCommands.setup_jobs run_daily (database f) db
  = match fst (db_get_active_subscribers (database f) db) with
    | [] => inr []
    | _ :: _ => inl (BotCommands.NotEnoughValuesToUnpack 6 2)
    end.
Proof.
  unfold BotCommands.setup_jobs. apply schedule_pairs. apply active_rows_are_pairs.
Qed.


